(** * Security_logon_logoff.py: extraction of logon/logoff and boot/shutdown
    events inside a business-hours window

    A shallow embedding of [src/Security_logon_logoff.py].  The script walks
    an ElementTree document, keeps the [Event] records whose identifier is in
    a fixed table and whose New York local hour lies in [9, 18), sorts the
    resulting rows by their [local_time] string and prints them to the
    console and to a CSV file.

    Conventions of the embedding:
    - Python [str] is [string]; characters are the code points 0..255.
    - [None] is [option]'s [None]; a raised exception is [Raise e] in the
      [result] monad and is never caught unless the source catches it.
    - dictionaries with string keys are [gmap string _].
    - [datetime] objects are records of their civil fields; every duration
      (UTC offsets included) is a number of microseconds in [Z].
    - the standard library is modelled as far as the script uses it:
      [ElementTree] elements with [find], [findall] and [get];
      [datetime.fromisoformat] with the format of Python 3.9 and 3.10,
      [astimezone] and [isoformat]; the zone America/New_York.
    - the document is taken as parsed ([ET.parse] is not modelled), and the
      only thing the script reads from the machine it runs on is the local
      time zone, which [astimezone] applies to naive values: it is the
      parameter [Machine]. *)

From Stdlib Require Import ZArith Ascii String.
From stdpp Require Import gmap strings list sorting.

Local Open Scope Z_scope.

(** ** Exceptions *)

Inductive exn :=
  | ValueError
  | AttributeError
  | OverflowError
  | KeyError.

Inductive result (A : Type) :=
  | Ok (a : A)
  | Raise (e : exn).
Arguments Ok {A} a.
Arguments Raise {A} e.

(** Sequencing: an exception raised by the first computation propagates.
    With the instance below, [x ← r; k] is this bind. *)
#[global] Instance result_bind : MBind result := λ A B k r,
  match r with
  | Ok a => k a
  | Raise e => Raise e
  end.

(** ** Python strings *)

Module Str.

(** Characters for which [str.isspace] holds, below code point 256. *)
Definition is_space (c : ascii) : bool :=
  let n := Z.of_N (N_of_ascii c) in
  ((9 <=? n) && (n <=? 13)) || ((28 <=? n) && (n <=? 32))
  || (n =? 133) || (n =? 160).

Fixpoint lstrip (s : string) : string :=
  match s with
  | String c s' => if is_space c then lstrip s' else s
  | EmptyString => EmptyString
  end.

Definition rstrip (s : string) : string :=
  String.rev (lstrip (String.rev s)).

(** [s.strip()] *)
Definition strip (s : string) : string := rstrip (lstrip s).

(** [s.endswith(suffix)] *)
Definition endswith (s suffix : string) : bool :=
  String.prefix (String.rev suffix) (String.rev s).

(** [s[:-1]] *)
Definition drop_last (s : string) : string :=
  String.substring 0 (String.length s - 1) s.

(** [s[i:]] *)
Fixpoint drop (i : nat) (s : string) : string :=
  match i, s with
  | O, _ => s
  | S i', String _ s' => drop i' s'
  | S _, EmptyString => EmptyString
  end.

(** [s[:i]] *)
Definition take (i : nat) (s : string) : string := String.substring 0 i s.

(** [s.replace(old, new)] for a pattern [old] of one character. *)
Fixpoint replace (old : ascii) (new : string) (s : string) : string :=
  match s with
  | EmptyString => EmptyString
  | String c s' =>
      if Ascii.eqb c old then new +:+ replace old new s'
      else String c (replace old new s')
  end.

(** Truth value of an optional string: [None] and [""] are falsy. *)
Definition truthy (o : option string) : bool :=
  match o with
  | Some (String _ _) => true
  | _ => false
  end.

(** [o or default] *)
Definition or_else (o : option string) (default : string) : string :=
  match o with
  | Some (String c s) => String c s
  | _ => default
  end.

(** Value of a decimal digit. *)
Definition digit (c : ascii) : option Z :=
  let n := Z.of_N (N_of_ascii c) in
  if (48 <=? n) && (n <=? 57) then Some (n - 48) else None.

(** Reads exactly [n] decimal digits at the front of [s]. *)
Fixpoint digits_from (n : nat) (acc : Z) (s : string) : option (Z * string) :=
  match n with
  | O => Some (acc, s)
  | S n' =>
      match s with
      | String c s' =>
          match digit c with
          | Some d => digits_from n' (10 * acc + d) s'
          | None => None
          end
      | EmptyString => None
      end
  end.

Definition digits (n : nat) (s : string) : option (Z * string) :=
  digits_from n 0 s.

(** Position of the first character satisfying [p], as [str.find]. *)
Fixpoint find_index (p : ascii → bool) (s : string) : option nat :=
  match s with
  | EmptyString => None
  | String c s' => if p c then Some O else S <$> find_index p s'
  end.

(** The decimal digit character of [0 <= d <= 9]. *)
Definition digit_char (d : Z) : ascii :=
  ascii_of_N (Z.to_N (48 + d mod 10)).

(** ["%02d" % n] for [0 <= n <= 99]. *)
Definition pad2 (n : Z) : string :=
  String (digit_char (n / 10)) (String (digit_char n) EmptyString).

(** ["%04d" % n] for [0 <= n <= 9999]. *)
Definition pad4 (n : Z) : string :=
  String (digit_char (n / 1000)) (String (digit_char (n / 100))
    (String (digit_char (n / 10)) (String (digit_char n) EmptyString))).

(** ["%06d" % n] for [0 <= n <= 999999]. *)
Definition pad6 (n : Z) : string :=
  String (digit_char (n / 100000)) (String (digit_char (n / 10000))
    (pad4 n)).

End Str.

(** ** ElementTree elements *)

Module ET.

(** An [xml.etree.ElementTree.Element]: tag, attribute dictionary, the text
    before the first child ([None] when there is none) and the children in
    document order. *)
#[warnings="-register-all"]
Inductive Element :=
  | Elem (tag : string) (attrib : gmap string string)
         (text : option string) (children : list Element).

Definition tag (e : Element) : string :=
  match e with Elem t _ _ _ => t end.
Definition attrib (e : Element) : gmap string string :=
  match e with Elem _ a _ _ => a end.
Definition text (e : Element) : option string :=
  match e with Elem _ _ x _ => x end.
Definition children (e : Element) : list Element :=
  match e with Elem _ _ _ cs => cs end.

Definition has_tag (name : string) (e : Element) : bool :=
  bool_decide (tag e = name).

(** [elem.get(attr)] *)
Definition get (e : Element) (attr : string) : option string :=
  attrib e !! attr.

(** [elem.findall(name)] for a plain tag name: the direct children with
    that tag, in document order. *)
Definition findall (e : Element) (name : string) : list Element :=
  List.filter (has_tag name) (children e).

(** [elem.find(name)] for a plain tag name: the first such child. *)
Definition find (e : Element) (name : string) : option Element :=
  List.find (has_tag name) (children e).

(** [elem.iter()]: the element and all its descendants, in document
    order. *)
Fixpoint iter (e : Element) : list Element :=
  match e with
  | Elem _ _ _ cs => e :: flat_map iter cs
  end.

(** [elem.findall(".//" + name)]: every descendant with that tag, at any
    depth and in document order; the element itself is not included. *)
Definition findall_descendants (e : Element) (name : string) : list Element :=
  List.filter (has_tag name) (flat_map iter (children e)).

End ET.

(** ** The [datetime] module *)

Module DT.

Definition MINYEAR : Z := 1.
Definition MAXYEAR : Z := 9999.
(** [date.max.toordinal()] *)
Definition MAXORDINAL : Z := 3652059.

Definition US_PER_SECOND : Z := 1000000.
Definition US_PER_DAY : Z := 86400 * US_PER_SECOND.

Definition DAYS_IN_MONTH : list Z :=
  [-1; 31; 28; 31; 30; 31; 30; 31; 31; 30; 31; 30; 31].
Definition DAYS_BEFORE_MONTH : list Z :=
  [-1; 0; 31; 59; 90; 120; 151; 181; 212; 243; 273; 304; 334].

Definition is_leap (year : Z) : bool :=
  (year mod 4 =? 0) && (negb (year mod 100 =? 0) || (year mod 400 =? 0)).

Definition days_before_year (year : Z) : Z :=
  let y := year - 1 in
  y * 365 + y / 4 - y / 100 + y / 400.

Definition days_in_month (year month : Z) : Z :=
  if (month =? 2) && is_leap year then 29
  else nth (Z.to_nat month) DAYS_IN_MONTH (-1).

Definition days_before_month (year month : Z) : Z :=
  nth (Z.to_nat month) DAYS_BEFORE_MONTH (-1)
  + (if (2 <? month) && is_leap year then 1 else 0).

(** Proleptic Gregorian ordinal of a date; 0001-01-01 is day 1. *)
Definition ymd2ord (year month day : Z) : Z :=
  days_before_year year + days_before_month year month + day.

Definition DI400Y : Z := 146097.
Definition DI100Y : Z := 36524.
Definition DI4Y : Z := 1461.

(** The date of an ordinal, by the 400/100/4/1-year cycles. *)
Definition ord2ymd (ordinal : Z) : Z * Z * Z :=
  let n := ordinal - 1 in
  let n400 := n / DI400Y in
  let n := n mod DI400Y in
  let year := n400 * 400 + 1 in
  let n100 := n / DI100Y in
  let n := n mod DI100Y in
  let n4 := n / DI4Y in
  let n := n mod DI4Y in
  let n1 := n / 365 in
  let n := n mod 365 in
  let year := year + n100 * 100 + n4 * 4 + n1 in
  if (n1 =? 4) || (n100 =? 4) then (year - 1, 12, 31)
  else
    let leapyear := (n1 =? 3) && (negb (n4 =? 24) || (n100 =? 3)) in
    let month := Z.shiftr (n + 50) 5 in
    let preceding :=
      nth (Z.to_nat month) DAYS_BEFORE_MONTH (-1)
      + (if (2 <? month) && leapyear then 1 else 0) in
    if n <? preceding then
      let month := month - 1 in
      let preceding :=
        preceding - (nth (Z.to_nat month) DAYS_IN_MONTH (-1)
                     + (if (month =? 2) && leapyear then 1 else 0)) in
      (year, month, n - preceding + 1)
    else (year, month, n - preceding + 1).

(** A [datetime].  [tzinfo] is [None] for a naive value; for an aware one
    it holds the UTC offset, in microseconds, that the attached time zone
    object reports for this value ([dt.utcoffset()]). *)
Record datetime := mk_datetime {
  year : Z;
  month : Z;
  day : Z;
  hour : Z;
  minute : Z;
  second : Z;
  microsecond : Z;
  tzinfo : option Z
}.

(** A [zoneinfo.ZoneInfo]: the UTC offset, in microseconds, in force at a
    given UTC date and time. *)
Definition ZoneInfo := datetime → Z.

Definition in_range (lo x hi : Z) : bool := (lo <=? x) && (x <=? hi).

(** The constructor [datetime(year, ..., tzinfo)]; [None] stands for the
    [ValueError] raised on a field out of range. *)
Definition new (y m d hh mm ss us : Z) (tz : option Z) : option datetime :=
  if in_range MINYEAR y MAXYEAR && in_range 1 m 12
     && in_range 1 d (days_in_month y m)
     && in_range 0 hh 23 && in_range 0 mm 59 && in_range 0 ss 59
     && in_range 0 us 999999
  then Some (mk_datetime y m d hh mm ss us tz)
  else None.

(** Microseconds elapsed on the value's own clock since
    0001-01-01T00:00:00. *)
Definition to_us (dt : datetime) : Z :=
  (ymd2ord (year dt) (month dt) (day dt) - 1) * US_PER_DAY
  + ((hour dt * 60 + minute dt) * 60 + second dt) * US_PER_SECOND
  + microsecond dt.

(** [dt + timedelta(microseconds=delta)], keeping [dt.tzinfo]. *)
Definition add (dt : datetime) (delta : Z) : result datetime :=
  let total := to_us dt + delta in
  let days := total / US_PER_DAY + 1 in
  let rest := total mod US_PER_DAY in
  let seconds := rest / US_PER_SECOND in
  let hh := seconds / 3600 in
  let rem := seconds mod 3600 in
  if (0 <? days) && (days <=? MAXORDINAL) then
    let '(y, m, d) := ord2ymd days in
    Ok (mk_datetime y m d hh (rem / 60) (rem mod 60)
          (rest mod US_PER_SECOND) (tzinfo dt))
  else Raise OverflowError.

(** [dt.replace(tzinfo=tz)] *)
Definition replace_tzinfo (dt : datetime) (tz : option Z) : datetime :=
  mk_datetime (year dt) (month dt) (day dt) (hour dt) (minute dt)
    (second dt) (microsecond dt) tz.

(** [tz.fromutc(utc)] for a [ZoneInfo]: shift the UTC value by the offset
    in force and attach the zone. *)
Definition fromutc (tz : ZoneInfo) (utc : datetime) : result datetime :=
  let off := tz utc in
  local ← add utc off;
  Ok (replace_tzinfo local (Some off)).

(** [dt.astimezone(tz)].  A naive [dt] is taken to be in the local time
    zone of the machine the script runs on: [system_utcoffset dt] is the
    offset that zone has at the wall-clock time [dt]. *)
Definition astimezone (system_utcoffset : datetime → Z)
    (dt : datetime) (tz : ZoneInfo) : result datetime :=
  let myoffset :=
    match tzinfo dt with
    | Some off => off
    | None => system_utcoffset dt
    end in
  utc ← add dt (- myoffset);
  fromutc tz utc.

(** The UTC offset as [isoformat] appends it: [+HH:MM], then [:SS] when
    the seconds or microseconds are not zero, then [.ffffff] when the
    microseconds are not zero; nothing for a naive value. *)
Definition format_utcoffset (tz : option Z) : string :=
  match tz with
  | None => ""
  | Some off =>
      let sign := if off <? 0 then "-" else "+" in
      let a := Z.abs off in
      let us := a mod US_PER_SECOND in
      let s := a / US_PER_SECOND in
      let hh := s / 3600 in
      let mm := (s mod 3600) / 60 in
      let ss := s mod 60 in
      sign +:+ Str.pad2 hh +:+ ":" +:+ Str.pad2 mm
      +:+ (if negb (us =? 0) then ":" +:+ Str.pad2 ss +:+ "." +:+ Str.pad6 us
           else if negb (ss =? 0) then ":" +:+ Str.pad2 ss
           else "")
  end.

(** [dt.isoformat(sep=sep, timespec="seconds")] *)
Definition isoformat (sep : string) (dt : datetime) : string :=
  Str.pad4 (year dt) +:+ "-" +:+ Str.pad2 (month dt) +:+ "-"
  +:+ Str.pad2 (day dt) +:+ sep
  +:+ Str.pad2 (hour dt) +:+ ":" +:+ Str.pad2 (minute dt) +:+ ":"
  +:+ Str.pad2 (second dt) +:+ format_utcoffset (tzinfo dt).

(** *** [datetime.fromisoformat]

    The format accepted by Python 3.9 and 3.10 (the first versions with
    [zoneinfo]), as documented:
    [YYYY-MM-DD[*HH[:MM[:SS[.fff[fff]]]][+HH:MM[:SS[.ffffff]]]]]
    where [*] is any single character.  [None] is the [ValueError]. *)

Definition expect (c : ascii) (s : string) : option string :=
  match s with
  | String c' s' => if Ascii.eqb c c' then Some s' else None
  | EmptyString => None
  end.

Definition parse_isoformat_date (dtstr : string) : option (Z * Z * Z) :=
  '(y, r) ← Str.digits 4 dtstr;
  r ← expect "-" r;
  '(m, r) ← Str.digits 2 r;
  r ← expect "-" r;
  '(d, r) ← Str.digits 2 r;
  match r with
  | EmptyString => Some (y, m, d)
  | _ => None
  end.

(** The fraction [.fff] or [.ffffff] that ends a time, in microseconds. *)
Definition parse_fraction (s : string) : option Z :=
  r ← expect "." s;
  match String.length r with
  | 3%nat => '(f, _) ← Str.digits 3 r; Some (f * 1000)
  | 6%nat => '(f, _) ← Str.digits 6 r; Some f
  | _ => None
  end.

(** [HH[:MM[:SS[.fff[fff]]]]] *)
Definition parse_hh_mm_ss_ff (tstr : string) : option (Z * Z * Z * Z) :=
  '(hh, r) ← Str.digits 2 tstr;
  match r with
  | EmptyString => Some (hh, 0, 0, 0)
  | _ =>
      r ← expect ":" r;
      '(mm, r) ← Str.digits 2 r;
      match r with
      | EmptyString => Some (hh, mm, 0, 0)
      | _ =>
          r ← expect ":" r;
          '(ss, r) ← Str.digits 2 r;
          match r with
          | EmptyString => Some (hh, mm, ss, 0)
          | _ => us ← parse_fraction r; Some (hh, mm, ss, us)
          end
      end
  end.

Definition is_sign (c : ascii) : bool :=
  Ascii.eqb c "+" || Ascii.eqb c "-".

(** The offset after the sign: [HH:MM], [HH:MM:SS] or [HH:MM:SS.ffffff];
    it must lie strictly between -24 h and +24 h. *)
Definition parse_tz (negative : bool) (tzstr : string) : option Z :=
  let len := String.length tzstr in
  if bool_decide (len = 5%nat ∨ len = 8%nat ∨ len = 15%nat) then
    '(hh, mm, ss, us) ← parse_hh_mm_ss_ff tzstr;
    let td := ((hh * 60 + mm) * 60 + ss) * US_PER_SECOND + us in
    if td <? US_PER_DAY then Some (if negative then - td else td)
    else None
  else None.

(** The time and offset parts after the separator. *)
Definition parse_isoformat_time (tstr : string)
    : option (Z * Z * Z * Z * option Z) :=
  match Str.find_index is_sign tstr with
  | None =>
      '(hh, mm, ss, us) ← parse_hh_mm_ss_ff tstr;
      Some (hh, mm, ss, us, None)
  | Some pos =>
      '(hh, mm, ss, us) ← parse_hh_mm_ss_ff (Str.take pos tstr);
      off ← parse_tz (bool_decide (String.get pos tstr = Some "-"%char))
               (Str.drop (S pos) tstr);
      Some (hh, mm, ss, us, Some off)
  end.

Definition fromisoformat (date_string : string) : option datetime :=
  '(y, m, d) ← parse_isoformat_date (Str.take 10 date_string);
  if (String.length date_string <=? 10)%nat then new y m d 0 0 0 0 None
  else
    '(hh, mm, ss, us, tz) ← parse_isoformat_time (Str.drop 11 date_string);
    new y m d hh mm ss us tz.

(** *** The zone America/New_York

    The tz database rule in force since 2007, which is also the rule the
    zone's data extends into the future (EST5EDT,M3.2.0,M11.1.0): daylight
    time (UTC-4) from 02:00 EST on the second Sunday of March to 02:00 EDT
    on the first Sunday of November, standard time (UTC-5) otherwise.  The
    different transitions of the years before 2007 are not represented. *)

(** The first Sunday on or after an ordinal (ordinal 1 is a Monday). *)
Definition sunday_on_or_after (ordinal : Z) : Z :=
  ordinal + (- ordinal) mod 7.

Definition America_New_York : ZoneInfo := λ utc,
  let y := year utc in
  let dst_start :=
    (sunday_on_or_after (ymd2ord y 3 8) - 1) * US_PER_DAY
    + 7 * 3600 * US_PER_SECOND in
  let dst_end :=
    (sunday_on_or_after (ymd2ord y 11 1) - 1) * US_PER_DAY
    + 6 * 3600 * US_PER_SECOND in
  let ts := to_us utc in
  if (dst_start <=? ts) && (ts <? dst_end)
  then -4 * 3600 * US_PER_SECOND
  else -5 * 3600 * US_PER_SECOND.

End DT.

(** ** The script *)

Import ET.

Definition INPUT_FILE : string := "securityEvt_formatted.xml".

Definition LOCAL_TZ : DT.ZoneInfo := DT.America_New_York.
Definition WINDOW_START_HOUR : Z := 9.
Definition WINDOW_END_HOUR : Z := 18.

Definition SYSTEM_EVENTS : gmap string string :=
  list_to_map [
    ("12", "SystemStart (Kernel-General)");
    ("13", "SystemShutdown (Kernel-General)");
    ("6005", "EventLog Started (Boot)");
    ("6006", "EventLog Stopped (Shutdown)");
    ("6008", "Unexpected Shutdown")
  ].

Definition SECURITY_EVENTS : gmap string string :=
  list_to_map [
    ("4624", "Logon Success");
    ("4625", "Logon Failure");
    ("4634", "Logoff");
    ("4647", "User Initiated Logoff");
    ("4672", "Special Privileges Assigned");
    ("4800", "Workstation Locked");
    ("4801", "Workstation Unlocked")
  ].

(** [{**SYSTEM_EVENTS, **SECURITY_EVENTS}]: on a common key the later
    dictionary wins, which is the left operand of stdpp's union. *)
Definition ALL_EVENTS : gmap string string :=
  SECURITY_EVENTS ∪ SYSTEM_EVENTS.

(** [key in d] *)
Definition contains (d : gmap string string) (key : string) : bool :=
  bool_decide (is_Some (d !! key)).

(** [d[key]] *)
Definition getitem (d : gmap string string) (key : string) : result string :=
  match d !! key with
  | Some v => Ok v
  | None => Raise KeyError
  end.

Definition try_iso_to_dt_utc (iso_str : option string) : option DT.datetime :=
  match iso_str with
  | None | Some EmptyString => None
  | Some iso_str =>
      let s := Str.strip iso_str in
      let s :=
        if Str.endswith s "Z" then Str.drop_last s +:+ "+00:00" else s in
      DT.fromisoformat s
  end.

Definition in_window_local (dt_local : DT.datetime) : bool :=
  let h := DT.hour dt_local in
  (WINDOW_START_HOUR <=? h) && (h <? WINDOW_END_HOUR).

Definition get_text (elem : Element) (path : string) : option string :=
  match find elem path with
  | Some x => text x
  | None => None
  end.

Definition get_attr (elem : Element) (path attr : string) : option string :=
  match find elem path with
  | Some x => get x attr
  | None => None
  end.

Definition is_user_name (name : option string) : bool :=
  bool_decide (name = Some "TargetUserName" ∨ name = Some "SubjectUserName").

(** The loop of [extract_username] over [ed.findall("Data")]; [user] is the
    value the variable holds when the loop is entered, and the [break]
    leaves the loop with the text just assigned. *)
Fixpoint scan_data (ds : list Element) (user : option string) : option string :=
  match ds with
  | [] => user
  | d :: ds' =>
      let name := get d "Name" in
      if is_user_name name then
        if Str.truthy (text d) then text d
        else scan_data ds' user
      else scan_data ds' user
  end.

Definition extract_username (event_elem : Element) : option string :=
  match find event_elem "EventData" with
  | None => None
  | Some ed => scan_data (findall ed "Data") None
  end.

(** The dictionary yielded for one event. *)
Record Row := mk_row {
  source : string;
  event_id : string;
  label : string;
  provider : string;
  computer : string;
  utc_time : string;
  local_time : string;
  user : string
}.

(** [l.sort(key=key)] with string keys: Python's sort is stable and
    compares keys with [<]; an element is placed before the first element
    of the sorted rest whose key is not smaller than its own. *)
Section Sort.
Context {A : Type} (key : A → string).

Fixpoint insert_by (x : A) (l : list A) : list A :=
  match l with
  | [] => [x]
  | y :: l' =>
      if String.ltb (key y) (key x) then y :: insert_by x l'
      else x :: l
  end.

Fixpoint sort_by (l : list A) : list A :=
  match l with
  | [] => []
  | x :: l' => insert_by x (sort_by l')
  end.

(** The order of two elements by their keys; [String.le] compares
    strings character by character, by code point. *)
Definition key_le (x y : A) : Prop := String.le (key x) (key y).
End Sort.

(** What a run writes: the console lines and the records handed to
    [csv.writer] for the file [csv_path]. *)
Record Output := mk_output {
  stdout : list string;
  csv_path : string;
  csv_rows : list (list string)
}.

Definition console_line (r : Row) : string :=
  local_time r +:+ " [" +:+ source r +:+ "] EventID=" +:+ event_id r
  +:+ " " +:+ label r +:+ " | Provider=" +:+ provider r
  +:+ " | Computer=" +:+ computer r +:+ " | User=" +:+ user r.

Definition csv_header : list string :=
  ["source"; "event_id"; "label"; "local_time"; "utc_time"; "provider";
   "computer"; "user"].

Definition csv_record (r : Row) : list string :=
  [source r; event_id r; label r; local_time r; utc_time r; provider r;
   computer r; user r].

(** [Path(INPUT_FILE).with_suffix(".traces_0900_1800_EST.csv")] *)
Definition out_csv : string :=
  "securityEvt_formatted.traces_0900_1800_EST.csv".

(** Lines 114-127 of [main]: one console line per row, the CSV header and
    one record per row in the same order, then the line naming the file. *)
Definition report (rows : list Row) : Output :=
  {|
    stdout :=
      (console_line <$> rows) ++ [String "010" ("Saved: " +:+ out_csv)];
    csv_path := out_csv;
    csv_rows := csv_header :: (csv_record <$> rows)
  |}.

(** The machine running the script: the UTC offset (in microseconds) of its
    local time zone at a given wall-clock time.  [astimezone] consults it
    for naive values. *)
Class Machine := system_utcoffset : DT.datetime → Z.

Section Script.

Context {machine : Machine}.

(** Lines 81-84 of [iter_relevant_events]: the value bound to [dt_utc]. *)
Definition dt_utc_of (system_time_utc : option string) : result DT.datetime :=
  let fallback :=
    match system_time_utc with
    | None => Raise AttributeError
    | Some raw =>
        match DT.fromisoformat (Str.replace "Z" "+00:00" raw) with
        | Some dt => Ok dt
        | None => Raise ValueError
        end
    end in
  match try_iso_to_dt_utc system_time_utc with
  | None => fallback
  | Some dt_utc =>
      match DT.tzinfo dt_utc with
      | None => fallback
      | Some _ => Ok dt_utc
      end
  end.

(** Lines 89-103 of [iter_relevant_events]: the dictionary yielded for an
    event that passed the identifier and window tests. *)
Definition yield_row (ev system : Element) (eid : string)
    (dt_utc dt_local : DT.datetime) : result Row :=
  let provider := get_attr system "Provider" "Name" in
  let computer := get_text system "Computer" in
  label ← getitem ALL_EVENTS eid;
  let user :=
    if contains SECURITY_EVENTS eid then extract_username ev else None in
  Ok {|
    source := if contains SECURITY_EVENTS eid then "security" else "system";
    event_id := eid;
    label := if bool_decide (eid = "4634") then "Logoff" else label;
    provider := Str.or_else provider "-";
    computer := Str.or_else computer "-";
    utc_time := DT.isoformat "T" dt_utc;
    local_time := DT.isoformat " " dt_local;
    user := Str.or_else user "-"
  |}.

(** The body of the loop of [iter_relevant_events] for one [Event]:
    [Ok None] when the body reaches [continue], [Ok (Some row)] when it
    yields.  An [EventID] without text gives [eid = None], which is not a
    key of [ALL_EVENTS]. *)
Definition relevant_event (ev : Element) : result (option Row) :=
  match find ev "System" with
  | None => Ok None
  | Some system =>
      match get_text system "EventID" with
      | None => Ok None
      | Some eid =>
          if negb (contains ALL_EVENTS eid) then Ok None
          else
            let system_time_utc :=
              get_attr system "TimeCreated" "SystemTime" in
            dt_utc ← dt_utc_of system_time_utc;
            dt_local ← DT.astimezone system_utcoffset dt_utc LOCAL_TZ;
            if negb (in_window_local dt_local) then Ok None
            else
              row ← yield_row ev system eid dt_utc dt_local;
              Ok (Some row)
      end
  end.

(** [list(...)] over the loop: the rows yielded for the events in order;
    an exception raised for one event ends the iteration. *)
Fixpoint collect (events : list Element) : result (list Row) :=
  match events with
  | [] => Ok []
  | ev :: events' =>
      r ← relevant_event ev;
      rows ← collect events';
      Ok (option_list r ++ rows)
  end.

Definition iter_relevant_events (root : Element) : result (list Row) :=
  collect (findall_descendants root "Event").

(** [main], from the parsed document on: [root] is [tree.getroot()]. *)
Definition main (root : Element) : result Output :=
  rows ← iter_relevant_events root;
  Ok (report (sort_by local_time rows)).

End Script.

(** ** Vocabulary of the properties *)

(** The event has an identifier and it is a key of [ALL_EVENTS]. *)
Definition listed (ev : Element) : bool :=
  match find ev "System" with
  | None => false
  | Some system =>
      match get_text system "EventID" with
      | None => false
      | Some eid => contains ALL_EVENTS eid
      end
  end.

(** The [Data] fields of an event, in document order. *)
Definition data_children (ev : Element) : list Element :=
  match find ev "EventData" with
  | Some ed => findall ed "Data"
  | None => []
  end.

(** A [Data] field that names a user: its [Name] is one of the two user
    names and its text is not empty. *)
Definition user_field (d : Element) : Prop :=
  (get d "Name" = Some "TargetUserName" ∨ get d "Name" = Some "SubjectUserName")
  ∧ ∃ c s, text d = Some (String c s).

(** The rows are in non-decreasing order of their [local_time] strings. *)
Definition sorted_by_local_time (rows : list Row) : Prop :=
  StronglySorted (key_le local_time) rows.

(** The rows of [rows] whose [local_time] is [k], in their order. *)
Definition with_local_time (k : string) (rows : list Row) : list Row :=
  filter (λ r, local_time r = k) rows.

(** The [SystemTime] attribute is missing, or neither [try_iso_to_dt_utc]
    nor the second parse after the substitution of ["+00:00"] for ["Z"]
    can read it. *)
Definition unreadable_time (system_time_utc : option string) : Prop :=
  match system_time_utc with
  | None => True
  | Some raw =>
      try_iso_to_dt_utc (Some raw) = None
      ∧ DT.fromisoformat (Str.replace "Z" "+00:00" raw) = None
  end.

(** The fields of a [datetime] are within the ranges in which [isoformat]
    prints them with four and two digits. *)
Definition fields_in_range (dt : DT.datetime) : Prop :=
  1 ≤ DT.year dt ≤ 9999 ∧ 1 ≤ DT.month dt ≤ 12 ∧ 1 ≤ DT.day dt ≤ 31
  ∧ 0 ≤ DT.hour dt ≤ 23 ∧ 0 ≤ DT.minute dt ≤ 59 ∧ 0 ≤ DT.second dt ≤ 59.

(** The loop body returns for the event, with a row or without one. *)
Definition returns {machine : Machine} (ev : Element) : Prop :=
  ∃ o, relevant_event ev = Ok o.

(** The offset that [astimezone] subtracts from a value to reach UTC: the
    value's own offset, or the machine's for a naive value. *)
Definition source_offset {machine : Machine} (dt : DT.datetime) : Z :=
  match DT.tzinfo dt with
  | Some off => off
  | None => system_utcoffset dt
  end.

(** Lines 80-85 of [iter_relevant_events] bind [dt_utc] and [dt_local] to
    these values for the [System] block. *)
Definition resolves_to {machine : Machine} (system : Element)
    (dt_utc dt_local : DT.datetime) : Prop :=
  dt_utc_of (get_attr system "TimeCreated" "SystemTime") = Ok dt_utc
  ∧ DT.astimezone system_utcoffset dt_utc LOCAL_TZ = Ok dt_local.

(** No column of the row is the empty string. *)
Definition nonempty_fields (r : Row) : Prop :=
  Forall (λ s, s ≠ "") (csv_record r).

(** ** Example documents *)

Module Examples.

Definition elem (t : string) (a : list (string * string))
    (x : option string) (cs : list Element) : Element :=
  Elem t (list_to_map a) x cs.

Definition data (name value : string) : Element :=
  elem "Data" [("Name", name)] (Some value) [].

(** A [System] block with identifier [id] and [TimeCreated/@SystemTime]
    [ts]; no [Provider], no [Computer]. *)
Definition system_block (id ts : string) : Element :=
  elem "System" [] None [
    elem "EventID" [] (Some id) [];
    elem "TimeCreated" [("SystemTime", ts)] None []
  ].

(** An [Event] with that block and the given [EventData] fields. *)
Definition event (id ts : string) (fields : list Element) : Element :=
  elem "Event" [] None [
    system_block id ts;
    elem "EventData" [] None fields
  ].

(** An [Event] whose [TimeCreated] has no [SystemTime] attribute. *)
Definition event_no_time (id : string) : Element :=
  elem "Event" [] None [
    elem "System" [] None [
      elem "EventID" [] (Some id) [];
      elem "TimeCreated" [] None []
    ]
  ].

Definition events (evs : list Element) : Element :=
  elem "Events" [] None evs.

(** A machine whose local zone is a fixed number of hours from UTC. *)
Definition fixed_zone (hours : Z) : Machine :=
  λ _, hours * 3600 * DT.US_PER_SECOND.

Definition alice_logon : Element :=
  event "4624" "2025-08-21T13:05:00Z" [data "TargetUserName" "alice"].

Definition naive_logon : Element :=
  event "4624" "2025-08-21T13:05:00" [data "TargetUserName" "alice"].

Definition offset_logon : Element :=
  event "4624" "2025-08-21T18:05:00+05:00"
    [data "SubjectUserName" "bob"; data "TargetUserName" "alice"].

Definition shutdown_with_user : Element :=
  event "6006" "2025-08-21T14:00:00Z" [data "TargetUserName" "alice"].

Definition evening_logon : Element :=
  event "4624" "2025-08-21T22:00:00Z" [data "TargetUserName" "alice"].

Definition unlisted : Element :=
  event "1102" "2025-08-21T14:00:00Z" [].

Definition bad_time : Element :=
  event "4624" "21/08/2025 13:05" [].

Definition bare_logon : Element :=
  event "4624" "2025-08-21T13:05:00Z" [].

(** The row of [offset_logon]. *)
Definition offset_logon_row : Row :=
  {|
    source := "security"; event_id := "4624"; label := "Logon Success";
    provider := "-"; computer := "-";
    utc_time := "2025-08-21T18:05:00+05:00";
    local_time := "2025-08-21 09:05:00-04:00";
    user := "bob"
  |}.

(** A document with two events at the same local second, an event of the
    system table that has a user field, an unlisted event and an event at
    18:00:00 local time. *)
Definition day_log : Element :=
  events [shutdown_with_user; offset_logon; unlisted; alice_logon;
          evening_logon].

(** A document with one event whose time stamp cannot be read, and one
    with an event that has no time stamp. *)
Definition broken_log : Element := events [alice_logon; bad_time].
Definition timeless_log : Element :=
  events [alice_logon; event_no_time "4624"].

(** The rows a run on a machine set to UTC reports for a document, none
    when the run fails. *)
Definition reported (root : Element) : list Row :=
  match iter_relevant_events (machine := fixed_zone 0) root with
  | Ok rows => sort_by local_time rows
  | Raise _ => []
  end.

(** A time stamp with a blank in front, with and without a zone. *)
Definition padded_aware : string := " 2025-08-21T13:05:00Z".
Definition padded_naive : string := " 2025-08-21T13:05:00".

(** An event with two [EventData] blocks, the user in the second. *)
Definition two_blocks : Element :=
  elem "Event" [] None [
    system_block "4624" "2025-08-21T13:05:00Z";
    elem "EventData" [] None [data "LogonType" "2"];
    elem "EventData" [] None [data "TargetUserName" "alice"]
  ].

(** Two events in the two possible orders. *)
Definition morning_log : Element :=
  events [alice_logon; shutdown_with_user].
Definition morning_log_reversed : Element :=
  events [shutdown_with_user; alice_logon].

(** The row of [alice_logon]. *)
Definition alice_logon_row : Row :=
  {|
    source := "security"; event_id := "4624"; label := "Logon Success";
    provider := "-"; computer := "-";
    utc_time := "2025-08-21T13:05:00+00:00";
    local_time := "2025-08-21 09:05:00-04:00";
    user := "alice"
  |}.

End Examples.

(** * Properties *)

(** ** The error monad *)

Lemma bind_Ok_inv {A B} (r : result A) (k : A → result B) (b : B) :
  r ≫= k = Ok b → ∃ a, r = Ok a ∧ k a = Ok b.
Proof. destruct r as [a|e]; simpl; [eauto | discriminate]. Qed.

Lemma bind_Ok {A B} (a : A) (k : A → result B) : Ok a ≫= k = k a.
Proof. reflexivity. Qed.

Lemma bind_Raise {A B} (k : A → result B) (e : exn) :
  Raise e ≫= k = Raise e.
Proof. reflexivity. Qed.

(** Steps through a computation of the monad without unfolding anything
    else. *)
Ltac step := rewrite ?bind_Ok, ?bind_Raise; cbn [negb].

(** ** Sorting by a string key *)

Section SortFacts.
Context {A : Type} (key : A → string).

Lemma ltb_le (s1 s2 : string) : String.ltb s1 s2 = true → String.le s1 s2.
Proof.
  unfold String.ltb, String.le, String.leb.
  destruct (String.compare s1 s2); simpl; done.
Qed.

Lemma not_ltb_le (s1 s2 : string) :
  String.ltb s1 s2 = false → String.le s2 s1.
Proof.
  unfold String.ltb, String.le, String.leb.
  rewrite (String.compare_antisym s2 s1).
  destruct (String.compare s1 s2); simpl; done.
Qed.

Lemma ltb_irrefl (s : string) : String.ltb s s = false.
Proof.
  unfold String.ltb.
  destruct (String.compare s s) eqn:E; try done.
  pose proof (String.compare_antisym s s) as H.
  rewrite E in H. discriminate.
Qed.

Lemma insert_by_Permutation (x : A) (l : list A) :
  insert_by key x l ≡ₚ x :: l.
Proof.
  induction l as [|y l IH]; simpl; [done|].
  destruct (String.ltb (key y) (key x)); [|done].
  rewrite IH. apply Permutation_swap.
Qed.

Lemma sort_by_Permutation (l : list A) : sort_by key l ≡ₚ l.
Proof.
  induction l as [|x l IH]; simpl; [done|].
  by rewrite insert_by_Permutation, IH.
Qed.

Lemma insert_by_sorted (x : A) (l : list A) :
  StronglySorted (key_le key) l → StronglySorted (key_le key) (insert_by key x l).
Proof.
  induction 1 as [|y l Hl IH Hy]; simpl.
  - repeat constructor.
  - destruct (String.ltb (key y) (key x)) eqn:E.
    + constructor; [done|].
      rewrite insert_by_Permutation. constructor; [|done].
      by apply ltb_le.
    + apply not_ltb_le in E.
      constructor; [by constructor|].
      constructor; [done|].
      eapply Forall_impl; [exact Hy|].
      intros z Hz. unfold key_le in *. by etrans.
Qed.

Lemma sort_by_sorted (l : list A) : StronglySorted (key_le key) (sort_by key l).
Proof.
  induction l; simpl; [constructor | by apply insert_by_sorted].
Qed.

(** Inserting an element leaves the elements of every other key where
    they are and puts it in front of those of its own key. *)
Lemma insert_by_filter (k : string) (x : A) (l : list A) :
  filter (λ y, key y = k) (insert_by key x l)
  = filter (λ y, key y = k) (x :: l).
Proof.
  induction l as [|y l IH]; simpl; [done|].
  destruct (String.ltb (key y) (key x)) eqn:E; [|done].
  rewrite !filter_cons in *.
  destruct (decide (key y = k)) as [Hy|Hy];
    destruct (decide (key x = k)) as [Hx|Hx];
    rewrite IH; try done.
  rewrite Hy, Hx, ltb_irrefl in E. discriminate.
Qed.

Lemma sort_by_stable (k : string) (l : list A) :
  filter (λ y, key y = k) (sort_by key l) = filter (λ y, key y = k) l.
Proof.
  induction l as [|x l IH]; simpl; [done|].
  rewrite insert_by_filter, !filter_cons, IH. done.
Qed.

(** Two sorted lists that agree, key by key, on the elements of that key
    and their order are equal: the outcome of a stable sort does not depend
    on the algorithm. *)
Lemma sorted_stable_unique (l1 l2 : list A) :
  StronglySorted (key_le key) l1 → StronglySorted (key_le key) l2 →
  (∀ k, filter (λ y, key y = k) l1 = filter (λ y, key y = k) l2) →
  l1 = l2.
Proof.
  intros Hl1. revert l2.
  induction Hl1 as [|x l1 Hl1 IH Hx]; intros l2 Hl2 Hfilter.
  - destruct l2 as [|y l2]; [done|].
    specialize (Hfilter (key y)). rewrite filter_cons_True in Hfilter by done.
    discriminate.
  - destruct Hl2 as [|y l2 Hl2 Hy].
    { specialize (Hfilter (key x)).
      rewrite filter_cons_True in Hfilter by done. discriminate. }
    assert (key x = key y) as Hkey.
    { destruct (decide (key x = key y)) as [|Hne]; [done|].
      apply (anti_symm String.le).
      - pose proof (Hfilter (key y)) as Hf.
        rewrite filter_cons_False, filter_cons_True in Hf by done.
        assert (y ∈ filter (λ z, key z = key y) l1) as Hin
          by (rewrite Hf; left).
        apply list_elem_of_filter in Hin as [_ Hin].
        by apply (proj1 (Forall_forall _ _) Hx).
      - pose proof (Hfilter (key x)) as Hf.
        rewrite filter_cons_True, filter_cons_False in Hf by done.
        assert (x ∈ filter (λ z, key z = key x) l2) as Hin
          by (rewrite <-Hf; left).
        apply list_elem_of_filter in Hin as [_ Hin].
        by apply (proj1 (Forall_forall _ _) Hy). }
    pose proof (Hfilter (key x)) as Hhead.
    rewrite !filter_cons_True in Hhead by done.
    injection Hhead as -> Htail. f_equal.
    apply IH; [done|]. intros k. specialize (Hfilter k).
    rewrite !filter_cons in Hfilter.
    destruct (decide (key y = k)); [by injection Hfilter | done].
Qed.

Lemma stable_sort_unique (l sorted : list A) :
  StronglySorted (key_le key) sorted →
  (∀ k, filter (λ y, key y = k) sorted = filter (λ y, key y = k) l) →
  sorted = sort_by key l.
Proof.
  intros Hsorted Hstable.
  apply sorted_stable_unique; [done | apply sort_by_sorted |].
  intros k. by rewrite Hstable, sort_by_stable.
Qed.

End SortFacts.

(** ** The identifier tables *)

Lemma contains_true (d : gmap string string) (k : string) :
  contains d k = true ↔ is_Some (d !! k).
Proof. unfold contains. apply bool_decide_eq_true. Qed.

Lemma contains_false (d : gmap string string) (k : string) :
  contains d k = false ↔ d !! k = None.
Proof.
  unfold contains. rewrite bool_decide_eq_false, eq_None_not_Some. done.
Qed.

Lemma tables_disjoint : dom SYSTEM_EVENTS ## dom SECURITY_EVENTS.
Proof. apply (bool_decide_unpack _). vm_compute. exact I. Qed.

Lemma system_not_security (k : string) :
  is_Some (SYSTEM_EVENTS !! k) → SECURITY_EVENTS !! k = None.
Proof.
  intros Hk. apply not_elem_of_dom. intros Hsec.
  apply (tables_disjoint k); [by apply elem_of_dom | done].
Qed.

(** The merged table has the keys of the two tables and no other. *)
Lemma ALL_EVENTS_lookup (k : string) :
  is_Some (ALL_EVENTS !! k)
  ↔ is_Some (SECURITY_EVENTS !! k) ∨ is_Some (SYSTEM_EVENTS !! k).
Proof.
  unfold ALL_EVENTS. rewrite <-!elem_of_dom, dom_union. set_solver.
Qed.

(** ** One event *)

Section ScriptFacts.

Context {machine : Machine}.

Lemma relevant_event_unlisted (ev : Element) :
  listed ev = false → relevant_event ev = Ok None.
Proof.
  unfold listed, relevant_event.
  destruct (find ev "System") as [system|]; [|done].
  destruct (get_text system "EventID") as [eid|]; [|done].
  by intros ->.
Qed.

(** What holds when the loop body yields. *)
Lemma relevant_event_yields (ev : Element) (r : Row) :
  relevant_event ev = Ok (Some r) →
  ∃ system eid dt_utc dt_local,
    find ev "System" = Some system
    ∧ get_text system "EventID" = Some eid
    ∧ contains ALL_EVENTS eid = true
    ∧ dt_utc_of (get_attr system "TimeCreated" "SystemTime") = Ok dt_utc
    ∧ DT.astimezone system_utcoffset dt_utc LOCAL_TZ = Ok dt_local
    ∧ in_window_local dt_local = true
    ∧ yield_row ev system eid dt_utc dt_local = Ok r.
Proof.
  unfold relevant_event.
  destruct (find ev "System") as [system|] eqn:Hsys; [|done].
  destruct (get_text system "EventID") as [eid|] eqn:Heid; [|done].
  destruct (contains ALL_EVENTS eid) eqn:Hall; [|done]. cbn [negb].
  intros (dt_utc & Hutc & Hrest)%bind_Ok_inv.
  apply bind_Ok_inv in Hrest as (dt_local & Hlocal & Hrest).
  destruct (in_window_local dt_local) eqn:Hwin; [|done]. cbn [negb] in Hrest.
  apply bind_Ok_inv in Hrest as (row & Hrow & Heq).
  injection Heq as ->.
  exists system, eid, dt_utc, dt_local. by repeat split.
Qed.

(** The loop body yields whenever the identifier is listed, the time
    stamp resolves, and the local hour is in the window. *)
Lemma relevant_event_qualifies (ev system : Element) (eid : string)
    (dt_utc dt_local : DT.datetime) :
  find ev "System" = Some system →
  get_text system "EventID" = Some eid →
  is_Some (ALL_EVENTS !! eid) →
  dt_utc_of (get_attr system "TimeCreated" "SystemTime") = Ok dt_utc →
  DT.astimezone system_utcoffset dt_utc LOCAL_TZ = Ok dt_local →
  in_window_local dt_local = true →
  ∃ r, relevant_event ev = Ok (Some r)
       ∧ yield_row ev system eid dt_utc dt_local = Ok r.
Proof.
  intros Hsys Heid Hall Hutc Hlocal Hwin.
  unfold relevant_event.
  rewrite Hsys, Heid. apply contains_true in Hall as Hc. rewrite Hc.
  step. rewrite Hutc. step. rewrite Hlocal. step. rewrite Hwin. step.
  unfold yield_row, getitem. destruct Hall as [label ->]. step. eauto.
Qed.

Lemma yield_row_fields (ev system : Element) (eid : string)
    (dt_utc dt_local : DT.datetime) (r : Row) :
  yield_row ev system eid dt_utc dt_local = Ok r →
  event_id r = eid
  ∧ is_Some (ALL_EVENTS !! eid)
  ∧ source r = (if contains SECURITY_EVENTS eid then "security" else "system")
  ∧ provider r = Str.or_else (get_attr system "Provider" "Name") "-"
  ∧ computer r = Str.or_else (get_text system "Computer") "-"
  ∧ utc_time r = DT.isoformat "T" dt_utc
  ∧ local_time r = DT.isoformat " " dt_local
  ∧ user r = Str.or_else (if contains SECURITY_EVENTS eid
                          then extract_username ev else None) "-".
Proof.
  unfold yield_row, getitem.
  destruct (ALL_EVENTS !! eid) as [label|] eqn:Hl; [|done]. simpl.
  intros [= <-]. simpl. eauto 10.
Qed.

Lemma yield_row_label (ev system : Element) (eid : string)
    (dt_utc dt_local : DT.datetime) (r : Row) :
  yield_row ev system eid dt_utc dt_local = Ok r →
  ∃ lbl, ALL_EVENTS !! eid = Some lbl
    ∧ label r = (if bool_decide (eid = "4634") then "Logoff" else lbl).
Proof.
  unfold yield_row, getitem.
  destruct (ALL_EVENTS !! eid) as [lbl|] eqn:Hl; [|done]. step.
  intros [= <-]. eauto.
Qed.

(** ** The loop over the events *)

Lemma collect_rows (events : list Element) (rows : list Row) :
  collect events = Ok rows →
  Forall (λ r, ∃ ev, ev ∈ events ∧ relevant_event ev = Ok (Some r)) rows.
Proof.
  revert rows. induction events as [|ev events IH]; simpl; intros rows.
  - intros [= <-]. constructor.
  - intros (o & Ho & H)%bind_Ok_inv.
    apply bind_Ok_inv in H as (rows' & Hrows' & Heq). simplify_eq.
    apply Forall_app. split.
    + destruct o as [r|]; simpl; [|constructor].
      constructor; [|constructor]. exists ev. split; [left | done].
    + eapply Forall_impl; [apply IH, Hrows'|].
      intros r (ev' & Hin & Hev'). exists ev'. split; [by right | done].
Qed.

(** The rows collected are the rows yielded event by event, in the order
    of the events. *)
Lemma collect_in_order (events : list Element) (rows : list Row) :
  collect events = Ok rows →
  ∃ outcomes,
    Forall2 (λ ev o, relevant_event ev = Ok o) events outcomes
    ∧ rows = omap id outcomes.
Proof.
  revert rows. induction events as [|ev events IH]; simpl; intros rows.
  - intros [= <-]. exists []. split; [constructor | done].
  - intros (o & Ho & Hrest)%bind_Ok_inv.
    apply bind_Ok_inv in Hrest as (rows' & Hrows' & Heq). simplify_eq.
    destruct (IH _ Hrows') as (outcomes & Hall & ->).
    exists (o :: outcomes). split; [by constructor|].
    by destruct o.
Qed.

Lemma collect_raises (events : list Element) (ev : Element) (e : exn) :
  ev ∈ events → relevant_event ev = Raise e →
  ∃ e', collect events = Raise e'.
Proof.
  intros Hin Hev. induction events as [|ev' events IH]; [by inversion Hin|].
  simpl. destruct (relevant_event ev') as [o|e'] eqn:Hev'; simpl; [|eauto].
  apply elem_of_cons in Hin as [->|Hin]; [congruence|].
  destruct (IH Hin) as [e' ->]. simpl. eauto.
Qed.

Lemma collect_listed (events : list Element) :
  collect events = collect (List.filter listed events).
Proof.
  induction events as [|ev events IH]; simpl; [done|].
  destruct (listed ev) eqn:Hl; simpl; rewrite IH; [done|].
  rewrite relevant_event_unlisted by done. simpl.
  by destruct (collect (List.filter listed events)).
Qed.

(** The rows that [main] reports are yielded by events of the document. *)
Lemma main_rows (root : Element) (out : Output) :
  main root = Ok out →
  ∃ rows,
    out = report rows
    ∧ Forall (λ r, ∃ ev, ev ∈ findall_descendants root "Event"
                         ∧ relevant_event ev = Ok (Some r)) rows.
Proof.
  unfold main.
  intros (rows & Hrows & Heq)%bind_Ok_inv. simplify_eq.
  exists (sort_by local_time rows). split; [done|].
  rewrite sort_by_Permutation. by apply collect_rows.
Qed.

End ScriptFacts.

(** ** Rendering of time stamps *)

Lemma isoformat_hour (sep : ascii) (dt : DT.datetime) :
  String.substring 11 2 (DT.isoformat (String sep "") dt)
  = Str.pad2 (DT.hour dt).
Proof. reflexivity. Qed.

(** Two printed digits read back as the number printed. *)
Lemma digits_pad2 (n : Z) :
  0 ≤ n ≤ 99 → Str.digits 2 (Str.pad2 n) = Some (n, "").
Proof.
  intros Hn.
  assert (∃ k : nat, (k < 100)%nat ∧ n = Z.of_nat k) as (k & Hk & ->).
  { exists (Z.to_nat n). lia. }
  clear Hn. do 100 (destruct k as [|k]; [reflexivity|]). lia.
Qed.

Lemma in_window_local_spec (dt_local : DT.datetime) :
  in_window_local dt_local = true ↔ 9 ≤ DT.hour dt_local < 18.
Proof.
  unfold in_window_local, WINDOW_START_HOUR, WINDOW_END_HOUR.
  rewrite andb_true_iff, Z.leb_le, Z.ltb_lt. done.
Qed.

Lemma ord2ymd_year (n : Z) :
  1 ≤ n ≤ DT.MAXORDINAL →
  DT.MINYEAR ≤ (DT.ord2ymd n).1.1 ≤ DT.MAXYEAR.
Proof.
  unfold DT.ord2ymd, DT.MAXORDINAL, DT.MINYEAR, DT.MAXYEAR, DT.DI400Y,
    DT.DI100Y, DT.DI4Y.
  intros Hn. cbv zeta.
  repeat case_match; cbn [fst];
    repeat match goal with
    | H : (_ || _) = true |- _ => apply orb_true_iff in H
    | H : (_ || _) = false |- _ => apply orb_false_iff in H as [??]
    | H : (_ =? _) = true |- _ => apply Z.eqb_eq in H
    | H : (_ =? _) = false |- _ => apply Z.eqb_neq in H
    end; Z.div_mod_to_equations; lia.
Qed.

Lemma ord2ymd_month_day (n : Z) :
  let '(y, m, d) := DT.ord2ymd n in 1 ≤ m ≤ 12 ∧ 1 ≤ d ≤ 31.
Proof.
  unfold DT.ord2ymd, DT.DI400Y, DT.DI100Y, DT.DI4Y. cbv zeta.
  set (r := (((n - 1) mod 146097) mod 36524) mod 1461 mod 365).
  assert (0 ≤ r < 365) as Hr by (apply Z.mod_pos_bound; lia).
  destruct (_ || _); [cbn beta iota; lia|].
  generalize ((((n - 1) mod 146097 mod 36524 mod 1461 / 365 =? 3)
     && (negb ((n - 1) mod 146097 mod 36524 / 1461 =? 24)
         || ((n - 1) mod 146097 / 36524 =? 3)))).
  intros leap.
  rewrite Z.shiftr_div_pow2 by lia. change (2 ^ 5) with 32.
  remember ((r + 50) / 32) as m eqn:Hm.
  assert (32 * m ≤ r + 50 < 32 * m + 32) as Hbound
    by (Z.div_mod_to_equations; lia).
  clear Hm.
  assert (m = 1 ∨ m = 2 ∨ m = 3 ∨ m = 4 ∨ m = 5 ∨ m = 6 ∨ m = 7
          ∨ m = 8 ∨ m = 9 ∨ m = 10 ∨ m = 11 ∨ m = 12) as Hm by lia.
  destruct_or!; subst m; destruct leap;
    repeat match goal with
    | |- context [Z.to_nat ?k] =>
        let v := eval vm_compute in (Z.to_nat k) in
        change (Z.to_nat k) with v
    | |- context [(?a <? ?b) && ?c] =>
        let v := eval vm_compute in ((a <? b) && c) in
        change ((a <? b) && c) with v
    | |- context [(?a =? ?b) && ?c] =>
        let v := eval vm_compute in ((a =? b) && c) in
        change ((a =? b) && c) with v
    end; cbn [nth DT.DAYS_BEFORE_MONTH DT.DAYS_IN_MONTH]; cbv iota;
    (destruct (r <? _) eqn:Hlt;
     [apply Z.ltb_lt in Hlt | apply Z.ltb_ge in Hlt]; lia).
Qed.

(** The values that [astimezone] and [fromisoformat] return have their
    fields in range, so that the digits of [Str.pad4] and [Str.pad2] are
    those of ["%04d"] and ["%02d"]. *)
Lemma add_in_range (dt dt' : DT.datetime) (delta : Z) :
  DT.add dt delta = Ok dt' → fields_in_range dt'.
Proof.
  unfold DT.add.
  destruct (_ && _) eqn:Hdays; [|done].
  apply andb_true_iff in Hdays as [Hlo%Z.ltb_lt Hhi%Z.leb_le].
  pose proof (ord2ymd_year ((DT.to_us dt + delta) / DT.US_PER_DAY + 1)) as Hy.
  pose proof (ord2ymd_month_day
                ((DT.to_us dt + delta) / DT.US_PER_DAY + 1)) as Hmd.
  destruct (DT.ord2ymd _) as [[y m] d]. cbn [fst] in Hy.
  intros [= <-]. unfold fields_in_range. cbn.
  unfold DT.MINYEAR, DT.MAXYEAR in Hy.
  unfold DT.US_PER_DAY, DT.US_PER_SECOND in *.
  split; [lia|]. split; [lia|]. split; [lia|].
  Z.div_mod_to_equations. lia.
Qed.

Lemma astimezone_in_range (f : DT.datetime → Z) (dt dt' : DT.datetime)
    (tz : DT.ZoneInfo) :
  DT.astimezone f dt tz = Ok dt' → fields_in_range dt'.
Proof.
  unfold DT.astimezone, DT.fromutc.
  intros (utc & _ & Hlocal)%bind_Ok_inv.
  apply bind_Ok_inv in Hlocal as (local & Hlocal & [= <-]).
  by apply add_in_range in Hlocal.
Qed.

Lemma new_in_range (y m d hh mm ss us : Z) (tz : option Z)
    (dt : DT.datetime) :
  DT.new y m d hh mm ss us tz = Some dt → fields_in_range dt.
Proof.
  unfold DT.new, DT.in_range, DT.MINYEAR, DT.MAXYEAR.
  destruct (_ && _) eqn:Hall; [|done]. intros [= <-].
  repeat match goal with
  | H : (_ && _) = true |- _ => apply andb_true_iff in H as [? H]
  | H : (_ && _) = true |- _ => apply andb_true_iff in H as [H ?]
  | H : (_ <=? _) = true |- _ => apply Z.leb_le in H
  end.
  assert (DT.days_in_month y m ≤ 31) as Hdim.
  { unfold DT.days_in_month. destruct (_ && _); [lia|].
    assert (m = 1 ∨ m = 2 ∨ m = 3 ∨ m = 4 ∨ m = 5 ∨ m = 6 ∨ m = 7
            ∨ m = 8 ∨ m = 9 ∨ m = 10 ∨ m = 11 ∨ m = 12) as Hm by lia.
    destruct_or!; subst m; vm_compute; discriminate. }
  unfold fields_in_range. cbn. lia.
Qed.

(** ** The user of an event *)

Lemma truthy_true (o : option string) :
  Str.truthy o = true ↔ ∃ c s, o = Some (String c s).
Proof.
  destruct o as [[|c s]|]; simpl; split; try done; eauto.
  all: by intros (? & ? & ?).
Qed.

Lemma user_field_test (d : Element) :
  user_field d
  ↔ is_user_name (get d "Name") = true ∧ Str.truthy (text d) = true.
Proof.
  unfold user_field, is_user_name.
  by rewrite bool_decide_eq_true, truthy_true.
Qed.

Lemma scan_data_none (ds : list Element) (user : option string) :
  Forall (λ d, ¬ user_field d) ds → scan_data ds user = user.
Proof.
  induction 1 as [|d ds Hd _ IH]; simpl; [done|].
  rewrite user_field_test in Hd.
  destruct (is_user_name (get d "Name")); [|done].
  destruct (Str.truthy (text d)); [|done].
  by destruct Hd.
Qed.

Lemma scan_data_first (before after : list Element) (d : Element)
    (user : option string) :
  Forall (λ d', ¬ user_field d') before → user_field d →
  scan_data (before ++ d :: after) user = text d.
Proof.
  intros Hbefore [Hname Htext]%user_field_test.
  induction Hbefore as [|d' before Hd' _ IH]; simpl.
  - by rewrite Hname, Htext.
  - rewrite user_field_test in Hd'.
    destruct (is_user_name (get d' "Name")); [|done].
    destruct (Str.truthy (text d')); [|done].
    by destruct Hd'.
Qed.

Lemma extract_username_scan (ev : Element) :
  extract_username ev = scan_data (data_children ev) None.
Proof.
  unfold extract_username, data_children.
  by destruct (find ev "EventData").
Qed.

(** ** The time stamp of an event *)

Lemma dt_utc_of_aware (raw : option string) (dt : DT.datetime) (off : Z) :
  try_iso_to_dt_utc raw = Some dt → DT.tzinfo dt = Some off →
  dt_utc_of raw = Ok dt.
Proof. intros Hdt Htz. unfold dt_utc_of. by rewrite Hdt, Htz. Qed.

Lemma dt_utc_of_unreadable (raw : option string) :
  unreadable_time raw →
  dt_utc_of raw
  = Raise (match raw with None => AttributeError | Some _ => ValueError end).
Proof.
  unfold unreadable_time, dt_utc_of. destruct raw as [raw|].
  - by intros [-> ->].
  - done.
Qed.

(** ** Parsed offsets *)

Lemma digit_range (c : ascii) (d : Z) : Str.digit c = Some d → 0 ≤ d ≤ 9.
Proof.
  unfold Str.digit.
  destruct (_ && _) eqn:E; [|done]. intros [= <-].
  apply andb_true_iff in E as [?%Z.leb_le ?%Z.leb_le]. lia.
Qed.

Lemma digits_from_nonneg (n : nat) (acc : Z) (s r : string) (v : Z) :
  Str.digits_from n acc s = Some (v, r) → 0 ≤ acc → 0 ≤ v.
Proof.
  revert acc s. induction n as [|n IH]; simpl; intros acc s.
  - intros [= <- _]. done.
  - destruct s as [|c s]; [done|].
    destruct (Str.digit c) as [d|] eqn:Hd; [|done].
    apply digit_range in Hd. intros Hv Hacc. apply (IH _ _ Hv). lia.
Qed.

Lemma digits_nonneg (n : nat) (s r : string) (v : Z) :
  Str.digits n s = Some (v, r) → 0 ≤ v.
Proof. intros Hv. by apply (digits_from_nonneg _ _ _ _ _ Hv). Qed.

Lemma parse_fraction_nonneg (s : string) (us : Z) :
  DT.parse_fraction s = Some us → 0 ≤ us.
Proof.
  unfold DT.parse_fraction.
  destruct (DT.expect "." s) as [r|]; [|done]. cbn [mbind option_bind].
  destruct (String.length r) as [|[|[|[|[|[|[|]]]]]]]; try done.
  - destruct (Str.digits 3 r) as [[f r']|] eqn:Hf; [|done].
    apply digits_nonneg in Hf. intros [= <-]. lia.
  - destruct (Str.digits 6 r) as [[f r']|] eqn:Hf; [|done].
    apply digits_nonneg in Hf. intros [= <-]. lia.
Qed.

Lemma parse_hh_mm_ss_ff_nonneg (tstr : string) (hh mm ss us : Z) :
  DT.parse_hh_mm_ss_ff tstr = Some (hh, mm, ss, us) →
  0 ≤ hh ∧ 0 ≤ mm ∧ 0 ≤ ss ∧ 0 ≤ us.
Proof.
  unfold DT.parse_hh_mm_ss_ff.
  destruct (Str.digits 2 tstr) as [[h r1]|] eqn:Hh; [|done].
  apply digits_nonneg in Hh. cbn [mbind option_bind].
  destruct r1 as [|c1 r1]; [intros [= <- <- <- <-]; lia|].
  destruct (DT.expect ":" _) as [r2|]; [|done]. cbn [mbind option_bind].
  destruct (Str.digits 2 r2) as [[m r3]|] eqn:Hm; [|done].
  apply digits_nonneg in Hm. cbn [mbind option_bind].
  destruct r3 as [|c3 r3]; [intros [= <- <- <- <-]; lia|].
  destruct (DT.expect ":" _) as [r4|]; [|done]. cbn [mbind option_bind].
  destruct (Str.digits 2 r4) as [[s r5]|] eqn:Hs; [|done].
  apply digits_nonneg in Hs. cbn [mbind option_bind].
  destruct r5 as [|c5 r5]; [intros [= <- <- <- <-]; lia|].
  destruct (DT.parse_fraction _) as [f|] eqn:Hf; [|done].
  apply parse_fraction_nonneg in Hf. cbn [mbind option_bind].
  intros [= <- <- <- <-]. lia.
Qed.

Lemma parse_tz_range (negative : bool) (tzstr : string) (off : Z) :
  DT.parse_tz negative tzstr = Some off →
  - DT.US_PER_DAY < off < DT.US_PER_DAY.
Proof.
  unfold DT.parse_tz. case_bool_decide; [|done].
  destruct (DT.parse_hh_mm_ss_ff tzstr) as [[[[hh mm] ss] us]|] eqn:Hp;
    [|done].
  apply parse_hh_mm_ss_ff_nonneg in Hp. cbn [mbind option_bind].
  destruct (_ <? _) eqn:Hlt; [|done]. apply Z.ltb_lt in Hlt.
  unfold DT.US_PER_SECOND in *.
  intros [= <-]. destruct negative; lia.
Qed.

Lemma fromisoformat_offset_range (s : string) (dt : DT.datetime) (off : Z) :
  DT.fromisoformat s = Some dt → DT.tzinfo dt = Some off →
  - DT.US_PER_DAY < off < DT.US_PER_DAY.
Proof.
  unfold DT.fromisoformat.
  destruct (DT.parse_isoformat_date _) as [[[y m] d]|]; [|done].
  cbn [mbind option_bind].
  assert (∀ hh mm ss us tz, DT.new y m d hh mm ss us tz = Some dt →
            DT.tzinfo dt = tz) as Hnew.
  { intros ?????. unfold DT.new. case_match; [|done]. by intros [= <-]. }
  destruct (_ <=? _)%nat.
  { intros ->%Hnew. done. }
  unfold DT.parse_isoformat_time.
  destruct (Str.find_index _ _) as [pos|].
  - destruct (DT.parse_hh_mm_ss_ff _) as [[[[hh mm] ss] us]|]; [|done].
    cbn [mbind option_bind].
    destruct (DT.parse_tz _ _) as [off'|] eqn:Htz; [|done].
    cbn [mbind option_bind].
    intros ->%Hnew [= ->]. by apply parse_tz_range in Htz.
  - destruct (DT.parse_hh_mm_ss_ff _) as [[[[hh mm] ss] us]|]; [|done].
    cbn [mbind option_bind]. intros ->%Hnew. done.
Qed.

Lemma try_iso_offset_range (raw : option string) (dt : DT.datetime) (off : Z) :
  try_iso_to_dt_utc raw = Some dt → DT.tzinfo dt = Some off →
  - DT.US_PER_DAY < off < DT.US_PER_DAY.
Proof.
  unfold try_iso_to_dt_utc. destruct raw as [[|c s]|]; try done.
  apply fromisoformat_offset_range.
Qed.

Lemma digit_char_zero (d : Z) : Str.digit_char d = "0"%char → d mod 10 = 0.
Proof.
  unfold Str.digit_char. intros Hc.
  pose proof (Z.mod_pos_bound d 10 ltac:(lia)) as Hd.
  apply (f_equal N_of_ascii) in Hc.
  rewrite N_ascii_embedding in Hc by lia.
  change (N_of_ascii "0") with 48%N in Hc. lia.
Qed.

Lemma format_utcoffset_utc (off : Z) :
  - DT.US_PER_DAY < off < DT.US_PER_DAY →
  DT.format_utcoffset (Some off) = "+00:00" → off = 0.
Proof.
  unfold DT.format_utcoffset, DT.US_PER_DAY, DT.US_PER_SECOND, Str.pad2.
  intros Hrange.
  destruct (off <? 0) eqn:Hneg; [done|]. apply Z.ltb_ge in Hneg.
  rewrite Z.abs_eq by done.
  destruct (off mod 1000000 =? 0) eqn:Hus; [|done]. apply Z.eqb_eq in Hus.
  destruct (off / 1000000 mod 60 =? 0) eqn:Hss; [|done]. apply Z.eqb_eq in Hss.
  cbn [negb String.append].
  intros [= H1%digit_char_zero H2%digit_char_zero
            H3%digit_char_zero H4%digit_char_zero].
  Z.div_mod_to_equations. lia.
Qed.

(** * The claims *)

Section Claims.

Context {machine : Machine}.

(** C3. The rows written to the console and to the file are the rows
    yielded for the events of the document, in non-decreasing order of
    their [local_time] strings; the sort is stable: the rows with one and
    the same [local_time] string stand in the order of the events that
    yielded them. *)
Theorem C3_rows_sorted_stably (root : Element) (out : Output) :
  main root = Ok out →
  ∃ outcomes rows,
    Forall2 (λ ev o, relevant_event ev = Ok o)
      (findall_descendants root "Event") outcomes
    ∧ stdout out
      = (console_line <$> rows) ++ [String "010" ("Saved: " +:+ out_csv)]
    ∧ csv_rows out = csv_header :: (csv_record <$> rows)
    ∧ rows ≡ₚ omap id outcomes
    ∧ sorted_by_local_time rows
    ∧ ∀ k, with_local_time k rows = with_local_time k (omap id outcomes).
Proof.
  unfold main, iter_relevant_events.
  intros (yielded & Hy & Heq)%bind_Ok_inv. simplify_eq.
  apply collect_in_order in Hy as (outcomes & Hall & ->).
  exists outcomes, (sort_by local_time (omap id outcomes)).
  split_and!; try done.
  - apply sort_by_Permutation.
  - apply sort_by_sorted.
  - intros k. apply sort_by_stable.
Qed.

(** C5. Every row reported by a run has a local time stamp whose hour [h]
    satisfies [9 <= h < 18], and that hour is what the [local_time] string
    shows at its hour position; an event whose local time has hour 18
    (18:00:00 included) yields no row. *)
Theorem C5_local_hour_in_window (root : Element) :
  (∀ out, main root = Ok out →
     ∃ rows, out = report rows
       ∧ Forall (λ r, ∃ dt_local,
                   local_time r = DT.isoformat " " dt_local
                   ∧ Str.digits 2 (String.substring 11 2 (local_time r))
                     = Some (DT.hour dt_local, "")
                   ∧ 9 ≤ DT.hour dt_local < 18) rows)
  ∧ (∀ ev system dt_utc dt_local,
       find ev "System" = Some system →
       dt_utc_of (get_attr system "TimeCreated" "SystemTime") = Ok dt_utc →
       DT.astimezone system_utcoffset dt_utc LOCAL_TZ = Ok dt_local →
       DT.hour dt_local = 18 →
       relevant_event ev = Ok None).
Proof.
  split.
  - intros out (rows & -> & Hrows)%main_rows.
    exists rows. split; [done|].
    eapply Forall_impl; [exact Hrows|]. simpl.
    intros r (ev & _ & Hev).
    apply relevant_event_yields in Hev
      as (system & eid & dt_utc & dt_local & _ & _ & _ & _ & _ & Hwin & Hrow).
    apply yield_row_fields in Hrow as (_ & _ & _ & _ & _ & _ & Hlocal & _).
    apply in_window_local_spec in Hwin.
    exists dt_local. rewrite Hlocal.
    split; [done|]. split; [|done].
    rewrite isoformat_hour. apply digits_pad2. lia.
  - intros ev system dt_utc dt_local Hsys Hutc Hlocal Hhour.
    unfold relevant_event. rewrite Hsys.
    destruct (get_text system "EventID") as [eid|]; [|done].
    destruct (contains ALL_EVENTS eid); [|done]. step.
    rewrite Hutc. step. rewrite Hlocal. step.
    unfold in_window_local. by rewrite Hhour.
Qed.

(** C6. In every row reported by a run the user is other than ["-"] only
    if the event's identifier is in the security table; when the
    identifier is in the system table the user is ["-"], whatever
    [EventData] fields the event has. *)
Theorem C6_user_only_for_security (root : Element) (out : Output) :
  main root = Ok out →
  ∃ rows, out = report rows
    ∧ Forall (λ r, ∃ ev system,
                ev ∈ findall_descendants root "Event"
                ∧ find ev "System" = Some system
                ∧ get_text system "EventID" = Some (event_id r)
                ∧ (user r ≠ "-" →
                   is_Some (SECURITY_EVENTS !! event_id r)
                   ∧ source r = "security")
                ∧ (is_Some (SYSTEM_EVENTS !! event_id r) →
                   user r = "-" ∧ source r = "system")) rows.
Proof.
  intros (rows & -> & Hrows)%main_rows.
  exists rows. split; [done|].
  eapply Forall_impl; [exact Hrows|]. simpl.
  intros r (ev & Hin & Hev).
  apply relevant_event_yields in Hev
    as (system & eid & dt_utc & dt_local & Hsys & Heid & _ & _ & _ & _ & Hrow).
  apply yield_row_fields in Hrow
    as (Hid & _ & Hsrc & _ & _ & _ & _ & Huser).
  subst eid. exists ev, system. split_and!; try done.
  - intros Hne. destruct (contains SECURITY_EVENTS (event_id r)) eqn:Hsec.
    + split; [by apply contains_true | done].
    + by rewrite Huser in Hne.
  - intros Hsystem%system_not_security%contains_false.
    by rewrite Huser, Hsrc, Hsystem.
Qed.

(** C9. An event whose identifier is missing or is not a key of
    [ALL_EVENTS] yields no row and raises nothing, so that a run is
    determined by the listed events alone; and every row reported by a
    run carries an identifier that is such a key. *)
Theorem C9_only_listed_identifiers (root : Element) :
  (∀ ev, listed ev = false → relevant_event ev = Ok None)
  ∧ iter_relevant_events root
    = collect (List.filter listed (findall_descendants root "Event"))
  ∧ (∀ out, main root = Ok out →
       ∃ rows, out = report rows
         ∧ Forall (λ r, is_Some (ALL_EVENTS !! event_id r)) rows).
Proof.
  split_and!.
  - apply relevant_event_unlisted.
  - apply collect_listed.
  - intros out (rows & -> & Hrows)%main_rows.
    exists rows. split; [done|].
    eapply Forall_impl; [exact Hrows|]. simpl.
    intros r (ev & _ & Hev).
    apply relevant_event_yields in Hev
      as (system & eid & dt_utc & dt_local & _ & _ & _ & _ & _ & _ & Hrow).
    apply yield_row_fields in Hrow as (<- & Hall & _). done.
Qed.

(** C4. For an event of the security table that yields a row, the user is
    the text of the first [Data] field, in document order, whose [Name] is
    ["TargetUserName"] or ["SubjectUserName"] and whose text is not empty,
    whichever of the two names it bears; without such a field the user is
    ["-"]. *)
Theorem C4_first_user_field_wins (ev : Element) (r : Row) :
  relevant_event ev = Ok (Some r) →
  is_Some (SECURITY_EVENTS !! event_id r) →
  (∀ before d after,
     data_children ev = before ++ d :: after →
     Forall (λ d', ¬ user_field d') before →
     user_field d →
     text d = Some (user r))
  ∧ (Forall (λ d, ¬ user_field d) (data_children ev) → user r = "-").
Proof.
  intros Hev Hsec.
  apply relevant_event_yields in Hev
    as (system & eid & dt_utc & dt_local & _ & _ & _ & _ & _ & _ & Hrow).
  apply yield_row_fields in Hrow as (<- & _ & _ & _ & _ & _ & _ & Huser).
  apply contains_true in Hsec. rewrite Hsec, extract_username_scan in Huser.
  split.
  - intros before d after Hdata Hbefore Hd.
    rewrite Hdata, (scan_data_first _ _ _ _ Hbefore Hd) in Huser.
    destruct Hd as [_ (c & s & Htext)]. by rewrite Huser, Htext.
  - intros Hnone. by rewrite (scan_data_none _ _ Hnone) in Huser.
Qed.

(** C7. When an event with a listed identifier has no [SystemTime]
    attribute, or one that neither parse can read, the loop body raises
    ([AttributeError] in the first case, [ValueError] in the second) and
    the run ends with an exception: nothing is reported. *)
Theorem C7_unreadable_time_is_fatal (root ev system : Element)
    (eid : string) :
  ev ∈ findall_descendants root "Event" →
  find ev "System" = Some system →
  get_text system "EventID" = Some eid →
  is_Some (ALL_EVENTS !! eid) →
  unreadable_time (get_attr system "TimeCreated" "SystemTime") →
  relevant_event ev
  = Raise (match get_attr system "TimeCreated" "SystemTime" with
           | None => AttributeError
           | Some _ => ValueError
           end)
  ∧ ∃ e, main root = Raise e.
Proof.
  intros Hin Hsys Heid Hall%contains_true Hbad.
  assert (relevant_event ev
          = Raise (match get_attr system "TimeCreated" "SystemTime" with
                   | None => AttributeError
                   | Some _ => ValueError
                   end)) as Hev.
  { unfold relevant_event. rewrite Hsys, Heid, Hall. step.
    by rewrite (dt_utc_of_unreadable _ Hbad). }
  split; [done|].
  destruct (collect_raises _ _ _ Hin Hev) as [e He].
  exists e. unfold main, iter_relevant_events. by rewrite He.
Qed.

(** C8. An event that passes the identifier test, whose time stamp
    resolves and whose local hour is in the window yields a row whether
    or not it has a provider name, a computer name or a user field; each
    of the three that is absent is shown as ["-"]. *)
Theorem C8_absent_optional_fields (ev system : Element) (eid : string)
    (dt_utc dt_local : DT.datetime) :
  find ev "System" = Some system →
  get_text system "EventID" = Some eid →
  is_Some (ALL_EVENTS !! eid) →
  dt_utc_of (get_attr system "TimeCreated" "SystemTime") = Ok dt_utc →
  DT.astimezone system_utcoffset dt_utc LOCAL_TZ = Ok dt_local →
  in_window_local dt_local = true →
  ∃ r, relevant_event ev = Ok (Some r)
    ∧ (get_attr system "Provider" "Name" = None → provider r = "-")
    ∧ (get_text system "Computer" = None → computer r = "-")
    ∧ (Forall (λ d, ¬ user_field d) (data_children ev) → user r = "-").
Proof.
  intros Hsys Heid Hall Hutc Hlocal Hwin.
  destruct (relevant_event_qualifies ev system eid dt_utc dt_local)
    as (r & Hev & Hrow); try done.
  apply yield_row_fields in Hrow
    as (_ & _ & _ & Hprov & Hcomp & _ & _ & Huser).
  exists r. split_and!; [done|..].
  - by intros Hnone; rewrite Hprov, Hnone.
  - by intros Hnone; rewrite Hcomp, Hnone.
  - intros Hnone. rewrite Huser, extract_username_scan.
    rewrite (scan_data_none _ _ Hnone). by destruct (contains _ _).
Qed.

(** C10. When the [SystemTime] of an event that yields a row is read with
    an explicit offset other than zero, [utc_time] shows the date and time
    as written in the source followed by that same offset, which is not
    ["+00:00"]: the value is not brought to UTC before it is written. *)
Theorem C10_utc_time_keeps_source_offset (ev system : Element) (r : Row)
    (raw : string) (dt : DT.datetime) (off : Z) :
  relevant_event ev = Ok (Some r) →
  find ev "System" = Some system →
  get_attr system "TimeCreated" "SystemTime" = Some raw →
  try_iso_to_dt_utc (Some raw) = Some dt →
  DT.tzinfo dt = Some off →
  off ≠ 0 →
  utc_time r = DT.isoformat "T" dt
  ∧ utc_time r
    = Str.pad4 (DT.year dt) +:+ "-" +:+ Str.pad2 (DT.month dt) +:+ "-"
      +:+ Str.pad2 (DT.day dt) +:+ "T" +:+ Str.pad2 (DT.hour dt) +:+ ":"
      +:+ Str.pad2 (DT.minute dt) +:+ ":" +:+ Str.pad2 (DT.second dt)
      +:+ DT.format_utcoffset (Some off)
  ∧ DT.format_utcoffset (Some off) ≠ "+00:00".
Proof.
  intros Hev Hsys Hraw Hdt Htz Hoff.
  apply relevant_event_yields in Hev
    as (system' & eid & dt_utc & dt_local & Hsys' & _ & _ & Hutc & _ & _ & Hrow).
  assert (system' = system) as -> by congruence.
  rewrite Hraw, (dt_utc_of_aware _ _ _ Hdt Htz) in Hutc.
  injection Hutc as <-.
  apply yield_row_fields in Hrow as (_ & _ & _ & _ & _ & Hutc & _).
  split; [done|]. split.
  - rewrite Hutc. unfold DT.isoformat. by rewrite Htz.
  - intros Hfmt. apply Hoff.
    apply format_utcoffset_utc; [|done].
    by apply (try_iso_offset_range _ _ _ Hdt).
Qed.

(** C2, as the script has it.  A document whose only event has identifier
    ["4624"], [SystemTime] ["2025-08-21T13:05:00Z"] and a [TargetUserName]
    field with text ["alice"], no user field standing before it, gives
    exactly one row: security, 4624, "Logon Success", user alice, and the
    local time ["2025-08-21 09:05:00-04:00"], which carries the UTC offset
    of the zone. *)
Theorem C2_single_logon_row (root ev system d : Element)
    (before after : list Element) :
  findall_descendants root "Event" = [ev] →
  find ev "System" = Some system →
  get_text system "EventID" = Some "4624" →
  get_attr system "TimeCreated" "SystemTime" = Some "2025-08-21T13:05:00Z" →
  data_children ev = before ++ d :: after →
  Forall (λ d', ¬ user_field d') before →
  get d "Name" = Some "TargetUserName" →
  text d = Some "alice" →
  ∃ r, main root = Ok (report [r])
    ∧ source r = "security"
    ∧ event_id r = "4624"
    ∧ label r = "Logon Success"
    ∧ local_time r = "2025-08-21 09:05:00-04:00"
    ∧ user r = "alice".
Proof.
  intros Hevents Hsys Heid Htime Hdata Hbefore Hname Htext.
  set (dt_utc := DT.mk_datetime 2025 8 21 13 5 0 0 (Some 0)).
  set (dt_local :=
         DT.mk_datetime 2025 8 21 9 5 0 0 (Some (-14400000000))).
  destruct (relevant_event_qualifies ev system "4624" dt_utc dt_local)
    as (r & Hev & Hrow); try done.
  { by rewrite Htime. }
  exists r. split.
  { unfold main, iter_relevant_events. rewrite Hevents.
    cbn [collect]. rewrite Hev. by step. }
  apply yield_row_label in Hrow as Hlabel.
  destruct Hlabel as (lbl & Hlbl & Hlabel).
  apply yield_row_fields in Hrow
    as (Hid & _ & Hsrc & _ & _ & _ & Hlocal & Huser).
  split_and!; try done.
  - by rewrite Hlabel; injection Hlbl as <-.
  - assert (user_field d) as Hd.
    { split; [by left | by exists "a"%char, "lice"]. }
    rewrite Huser, extract_username_scan, Hdata.
    by rewrite (scan_data_first _ _ _ _ Hbefore Hd), Htext.
Qed.

End Claims.

(** * The claims on concrete documents *)

Import Examples.

(** C1. A [SystemTime] without time zone is not taken as UTC.  For the
    event [naive_logon], stamped ["2025-08-21T13:05:00"], the second parse
    returns the same naive value: [utc_time] carries no ["+00:00"], and the
    local time is computed from the zone of the machine.  On a machine four
    hours behind UTC the row shows 13:05 New York time where the UTC
    reading gives 09:05; only on a machine set to UTC do the two agree. *)
Theorem C1_naive_time_not_taken_as_utc :
  main (machine := fixed_zone (-4)) (events [naive_logon])
  = Ok (report [{|
      source := "security"; event_id := "4624"; label := "Logon Success";
      provider := "-"; computer := "-";
      utc_time := "2025-08-21T13:05:00";
      local_time := "2025-08-21 13:05:00-04:00";
      user := "alice" |}])
  ∧ main (machine := fixed_zone 0) (events [naive_logon])
    = Ok (report [{|
        source := "security"; event_id := "4624"; label := "Logon Success";
        provider := "-"; computer := "-";
        utc_time := "2025-08-21T13:05:00";
        local_time := "2025-08-21 09:05:00-04:00";
        user := "alice" |}]).
Proof. split; vm_compute; reflexivity. Qed.

(** The run on the document that holds [alice_logon] alone. *)
Lemma alice_logon_output :
  main (machine := fixed_zone 0) (events [alice_logon])
  = Ok (report [{|
      source := "security"; event_id := "4624"; label := "Logon Success";
      provider := "-"; computer := "-";
      utc_time := "2025-08-21T13:05:00+00:00";
      local_time := "2025-08-21 09:05:00-04:00";
      user := "alice" |}]).
Proof. vm_compute. reflexivity. Qed.

Lemma C2_single_logon_row_witness :
  ∃ r, main (machine := fixed_zone 0) (events [alice_logon]) = Ok (report [r])
    ∧ source r = "security"
    ∧ event_id r = "4624"
    ∧ label r = "Logon Success"
    ∧ local_time r = "2025-08-21 09:05:00-04:00"
    ∧ user r = "alice".
Proof.
  apply (C2_single_logon_row (machine := fixed_zone 0)
           (events [alice_logon]) alice_logon
           (system_block "4624" "2025-08-21T13:05:00Z")
           (data "TargetUserName" "alice") [] []);
    first [constructor | vm_compute; reflexivity].
Defined.

(** C2, as the claim words it, does not hold: the row for [alice_logon]
    does not have the local time ["2025-08-21 09:05:00"]. *)
Lemma C2_local_time_has_offset :
  ¬ ∃ r, main (machine := fixed_zone 0) (events [alice_logon])
         = Ok (report [r])
      ∧ source r = "security"
      ∧ event_id r = "4624"
      ∧ label r = "Logon Success"
      ∧ local_time r = "2025-08-21 09:05:00"
      ∧ user r = "alice".
Proof.
  intros (r & Hmain & _ & _ & _ & Hlocal & _).
  rewrite alice_logon_output in Hmain.
  injection Hmain as _ _ _ _ Hrow _ _ _ _.
  rewrite Hlocal in Hrow. discriminate.
Qed.

(** ** Instances of the theorems that have hypotheses *)

Lemma C3_rows_sorted_stably_witness :
  ∃ outcomes rows,
    Forall2 (λ ev o, relevant_event (machine := fixed_zone 0) ev = Ok o)
      (findall_descendants day_log "Event") outcomes
    ∧ with_local_time "2025-08-21 09:05:00-04:00" rows
      = with_local_time "2025-08-21 09:05:00-04:00" (omap id outcomes)
    ∧ sorted_by_local_time rows.
Proof.
  destruct (C3_rows_sorted_stably (machine := fixed_zone 0) day_log
              (report (sort_by local_time
                 (match iter_relevant_events (machine := fixed_zone 0) day_log
                  with Ok rows => rows | Raise _ => [] end))))
    as (outcomes & rows & Hevents & _ & _ & _ & Hsorted & Hstable).
  - vm_compute. reflexivity.
  - exists outcomes, rows.
    split; [exact Hevents|]. split; [apply Hstable | exact Hsorted].
Defined.


Lemma C4_first_user_field_wins_witness :
  text (data "SubjectUserName" "bob") = Some (user offset_logon_row).
Proof.
  refine (proj1 (C4_first_user_field_wins (machine := fixed_zone 0)
                   offset_logon offset_logon_row _ _)
            [] (data "SubjectUserName" "bob")
            [data "TargetUserName" "alice"] _ _ _).
  - vm_compute. reflexivity.
  - exists "Logon Success". vm_compute. reflexivity.
  - vm_compute. reflexivity.
  - constructor.
  - split; [right; vm_compute; reflexivity | by exists "b"%char, "ob"].
Defined.

Lemma C5_local_hour_in_window_witness :
  (∃ rows,
     main (machine := fixed_zone 0) day_log = Ok (report rows)
     ∧ Forall (λ r, ∃ dt_local,
                 local_time r = DT.isoformat " " dt_local
                 ∧ Str.digits 2 (String.substring 11 2 (local_time r))
                   = Some (DT.hour dt_local, "")
                 ∧ 9 ≤ DT.hour dt_local < 18) rows)
  ∧ relevant_event (machine := fixed_zone 0) evening_logon = Ok None.
Proof.
  destruct (C5_local_hour_in_window (machine := fixed_zone 0) day_log)
    as [Hrows Hout].
  split.
  - destruct (Hrows (report (sort_by local_time
                 (match iter_relevant_events (machine := fixed_zone 0) day_log
                  with Ok rows => rows | Raise _ => [] end))))
      as (rows & Heq & Hall).
    + vm_compute. reflexivity.
    + exists rows. split; [|exact Hall].
      rewrite <-Heq. vm_compute. reflexivity.
  - apply (Hout evening_logon
             (system_block "4624" "2025-08-21T22:00:00Z")
             (DT.mk_datetime 2025 8 21 22 0 0 0 (Some 0))
             (DT.mk_datetime 2025 8 21 18 0 0 0 (Some (-14400000000))));
      vm_compute; reflexivity.
Defined.

Lemma C6_user_only_for_security_witness :
  ∃ rows,
    main (machine := fixed_zone 0) (events [shutdown_with_user])
    = Ok (report rows)
    ∧ Forall (λ r, user r = "-" ∧ source r = "system") rows.
Proof.
  destruct (C6_user_only_for_security (machine := fixed_zone 0)
              (events [shutdown_with_user])
              (report [{|
                 source := "system"; event_id := "6006";
                 label := "EventLog Stopped (Shutdown)";
                 provider := "-"; computer := "-";
                 utc_time := "2025-08-21T14:00:00+00:00";
                 local_time := "2025-08-21 10:00:00-04:00";
                 user := "-" |}]))
    as (rows & Heq & Hall).
  - vm_compute. reflexivity.
  - exists rows. split.
    + rewrite <-Heq. vm_compute. reflexivity.
    + eapply Forall_impl; [exact Hall|]. cbn beta.
      intros r (ev & system & Hin & Hsys & Hid & _ & Hsystem).
      apply Hsystem.
      assert (findall_descendants (events [shutdown_with_user]) "Event"
              = [shutdown_with_user]) as Hevents by (vm_compute; reflexivity).
      rewrite Hevents in Hin. apply list_elem_of_singleton in Hin. subst ev.
      assert (find shutdown_with_user "System"
              = Some (system_block "6006" "2025-08-21T14:00:00Z")) as Hblock
        by (vm_compute; reflexivity).
      rewrite Hblock in Hsys. injection Hsys as <-.
      assert (get_text (system_block "6006" "2025-08-21T14:00:00Z") "EventID"
              = Some "6006") as Hsix by (vm_compute; reflexivity).
      rewrite Hsix in Hid. injection Hid as <-.
      exists "EventLog Stopped (Shutdown)". vm_compute. reflexivity.
Defined.

Lemma C7_unreadable_time_is_fatal_witness :
  (relevant_event (machine := fixed_zone 0) bad_time = Raise ValueError
   ∧ ∃ e, main (machine := fixed_zone 0) broken_log = Raise e)
  ∧ (relevant_event (machine := fixed_zone 0) (event_no_time "4624")
     = Raise AttributeError
     ∧ ∃ e, main (machine := fixed_zone 0) timeless_log = Raise e).
Proof.
  split.
  - apply (C7_unreadable_time_is_fatal (machine := fixed_zone 0)
             broken_log bad_time (system_block "4624" "21/08/2025 13:05")
             "4624").
    + assert (findall_descendants broken_log "Event"
              = [alice_logon; bad_time]) as -> by (vm_compute; reflexivity).
      apply list_elem_of_further, list_elem_of_here.
    + vm_compute. reflexivity.
    + vm_compute. reflexivity.
    + exists "Logon Success". vm_compute. reflexivity.
    + assert (get_attr (system_block "4624" "21/08/2025 13:05")
                "TimeCreated" "SystemTime" = Some "21/08/2025 13:05") as ->
        by (vm_compute; reflexivity).
      split; vm_compute; reflexivity.
  - apply (C7_unreadable_time_is_fatal (machine := fixed_zone 0)
             timeless_log (event_no_time "4624")
             (elem "System" [] None [
                elem "EventID" [] (Some "4624") [];
                elem "TimeCreated" [] None []])
             "4624").
    + assert (findall_descendants timeless_log "Event"
              = [alice_logon; event_no_time "4624"]) as ->
        by (vm_compute; reflexivity).
      apply list_elem_of_further, list_elem_of_here.
    + vm_compute. reflexivity.
    + vm_compute. reflexivity.
    + exists "Logon Success". vm_compute. reflexivity.
    + vm_compute. exact I.
Defined.

Lemma C8_absent_optional_fields_witness :
  ∃ r, relevant_event (machine := fixed_zone 0) bare_logon = Ok (Some r)
    ∧ provider r = "-" ∧ computer r = "-" ∧ user r = "-".
Proof.
  destruct (C8_absent_optional_fields (machine := fixed_zone 0)
              bare_logon (system_block "4624" "2025-08-21T13:05:00Z") "4624"
              (DT.mk_datetime 2025 8 21 13 5 0 0 (Some 0))
              (DT.mk_datetime 2025 8 21 9 5 0 0 (Some (-14400000000))))
    as (r & Hev & Hprovider & Hcomputer & Huser).
  - vm_compute. reflexivity.
  - vm_compute. reflexivity.
  - exists "Logon Success". vm_compute. reflexivity.
  - vm_compute. reflexivity.
  - vm_compute. reflexivity.
  - vm_compute. reflexivity.
  - exists r. split; [exact Hev|]. split; [|split].
    + apply Hprovider. vm_compute. reflexivity.
    + apply Hcomputer. vm_compute. reflexivity.
    + apply Huser. constructor.
Defined.

Lemma C9_only_listed_identifiers_witness :
  relevant_event (machine := fixed_zone 0) unlisted = Ok None
  ∧ ∃ rows,
      main (machine := fixed_zone 0) day_log = Ok (report rows)
      ∧ Forall (λ r, is_Some (ALL_EVENTS !! event_id r)) rows.
Proof.
  destruct (C9_only_listed_identifiers (machine := fixed_zone 0) day_log)
    as (Hunlisted & _ & Hrows).
  split.
  - apply Hunlisted. vm_compute. reflexivity.
  - destruct (Hrows (report (sort_by local_time
                 (match iter_relevant_events (machine := fixed_zone 0) day_log
                  with Ok rows => rows | Raise _ => [] end))))
      as (rows & Heq & Hall).
    + vm_compute. reflexivity.
    + exists rows. split; [|exact Hall].
      rewrite <-Heq. vm_compute. reflexivity.
Defined.

Lemma C10_utc_time_keeps_source_offset_witness :
  utc_time offset_logon_row
  = DT.isoformat "T"
      (DT.mk_datetime 2025 8 21 18 5 0 0 (Some 18000000000))
  ∧ DT.format_utcoffset (Some 18000000000) ≠ "+00:00".
Proof.
  destruct (C10_utc_time_keeps_source_offset (machine := fixed_zone 0)
              offset_logon (system_block "4624" "2025-08-21T18:05:00+05:00")
              offset_logon_row "2025-08-21T18:05:00+05:00"
              (DT.mk_datetime 2025 8 21 18 5 0 0 (Some 18000000000))
              18000000000)
    as (Hutc & _ & Hoffset).
  - vm_compute. reflexivity.
  - vm_compute. reflexivity.
  - vm_compute. reflexivity.
  - vm_compute. reflexivity.
  - reflexivity.
  - discriminate.
  - split; [exact Hutc | exact Hoffset].
Defined.


(** * Further properties of the script *)

(** ** Outcomes of the loop body *)

Lemma dt_utc_of_raises (raw : option string) (e : exn) :
  dt_utc_of raw = Raise e →
  (e = AttributeError ∧ raw = None)
  ∨ (e = ValueError
     ∧ ∃ s, raw = Some s
         ∧ DT.fromisoformat (Str.replace "Z" "+00:00" s) = None).
Proof.
  unfold dt_utc_of.
  assert (match raw with
          | Some s =>
              match DT.fromisoformat (Str.replace "Z" "+00:00" s) with
              | Some dt => Ok dt
              | None => Raise ValueError
              end
          | None => Raise AttributeError
          end = Raise e →
          (e = AttributeError ∧ raw = None)
          ∨ (e = ValueError
             ∧ ∃ s, raw = Some s
                 ∧ DT.fromisoformat (Str.replace "Z" "+00:00" s) = None))
    as Hfallback.
  { destruct raw as [s|]; [|intros [= <-]; by left].
    destruct (DT.fromisoformat _) eqn:Hparse; [done|].
    intros [= <-]. right. eauto. }
  destruct (try_iso_to_dt_utc raw) as [dt|]; [|done].
  by destruct (DT.tzinfo dt).
Qed.

Lemma add_raises (dt : DT.datetime) (delta : Z) (e : exn) :
  DT.add dt delta = Raise e → e = OverflowError.
Proof.
  unfold DT.add. destruct (_ && _); [|by intros [= <-]].
  by destruct (DT.ord2ymd _) as [[y m] d].
Qed.

Lemma astimezone_raises (f : DT.datetime → Z) (dt : DT.datetime)
    (tz : DT.ZoneInfo) (e : exn) :
  DT.astimezone f dt tz = Raise e → e = OverflowError.
Proof.
  unfold DT.astimezone, DT.fromutc.
  destruct (DT.add dt _) as [utc|e'] eqn:Hutc.
  - rewrite bind_Ok.
    destruct (DT.add utc _) as [local|e'] eqn:Hlocal; [done|].
    rewrite bind_Raise. intros [= <-]. by apply add_raises in Hlocal.
  - rewrite bind_Raise. intros [= <-]. by apply add_raises in Hutc.
Qed.

Section Outcomes.

Context {machine : Machine}.

Lemma yield_row_returns (ev system : Element) (eid : string)
    (dt_utc dt_local : DT.datetime) :
  is_Some (ALL_EVENTS !! eid) →
  ∃ r, yield_row ev system eid dt_utc dt_local = Ok r.
Proof.
  intros [lbl Hlbl]. unfold yield_row, getitem. rewrite Hlbl. step. eauto.
Qed.

Lemma listed_true (ev : Element) :
  listed ev = true
  ↔ ∃ system eid,
      find ev "System" = Some system
      ∧ get_text system "EventID" = Some eid
      ∧ is_Some (ALL_EVENTS !! eid).
Proof.
  unfold listed. split.
  - destruct (find ev "System") as [system|] eqn:Hsys; [|done].
    destruct (get_text system "EventID") as [eid|] eqn:Heid; [|done].
    intros Hc%contains_true. by exists system, eid.
  - intros (system & eid & -> & -> & Hall). by apply contains_true.
Qed.

(** X1. The label of a row is the entry of its identifier in [ALL_EVENTS]:
    the special case for ["4634"] changes nothing, the table already says
    ["Logoff"]. *)
Theorem X1_label_is_table_entry (root : Element) (out : Output) :
  main root = Ok out →
  ∃ rows, out = report rows
    ∧ Forall (λ r, ALL_EVENTS !! event_id r = Some (label r)) rows.
Proof.
  intros (rows & -> & Hrows)%main_rows.
  exists rows. split; [done|].
  eapply Forall_impl; [exact Hrows|]. cbn beta.
  intros r (ev & _ & Hev).
  apply relevant_event_yields in Hev
    as (system & eid & dt_utc & dt_local & _ & _ & _ & _ & _ & _ & Hrow).
  apply yield_row_label in Hrow as Hlabel.
  destruct Hlabel as (lbl & Hlbl & Hlabel).
  apply yield_row_fields in Hrow as (Hid & _). subst eid.
  rewrite Hlabel. case_bool_decide as Hlogoff; [|done].
  rewrite Hlogoff in Hlbl |- *. done.
Qed.

(** X2. The [source] of a row tells the table of its identifier: it is
    ["security"] exactly for the keys of [SECURITY_EVENTS] and ["system"]
    exactly for the keys of [SYSTEM_EVENTS]; there is no third value. *)
Theorem X2_source_is_the_table (root : Element) (out : Output) :
  main root = Ok out →
  ∃ rows, out = report rows
    ∧ Forall (λ r,
        (source r = "security" ∨ source r = "system")
        ∧ (source r = "security" ↔ is_Some (SECURITY_EVENTS !! event_id r))
        ∧ (source r = "system" ↔ is_Some (SYSTEM_EVENTS !! event_id r)))
        rows.
Proof.
  intros (rows & -> & Hrows)%main_rows.
  exists rows. split; [done|].
  eapply Forall_impl; [exact Hrows|]. cbn beta.
  intros r (ev & _ & Hev).
  apply relevant_event_yields in Hev
    as (system & eid & dt_utc & dt_local & _ & _ & _ & _ & _ & _ & Hrow).
  apply yield_row_fields in Hrow as (Hid & Hall & Hsrc & _). subst eid.
  apply ALL_EVENTS_lookup in Hall. rewrite Hsrc.
  destruct (contains SECURITY_EVENTS (event_id r)) eqn:Hsec.
  - apply contains_true in Hsec. split_and!; [by left|done|].
    split; [done|]. intros Hsys%system_not_security.
    rewrite Hsys in Hsec. by destruct Hsec.
  - apply contains_false in Hsec. split_and!; [by right| |].
    + split; [done|]. rewrite Hsec. by intros [? ?].
    + split; [|done]. intros _. destruct Hall as [Hall|]; [|done].
      rewrite Hsec in Hall. by destruct Hall.
Qed.


(** X6. The loop body skips an event, without raising, in exactly two
    cases: the event is not listed, or its time stamp resolves and the
    local hour is outside [9, 18). *)
Theorem X6_skipped_events (ev : Element) :
  relevant_event ev = Ok None
  ↔ listed ev = false
    ∨ ∃ system dt_utc dt_local,
        find ev "System" = Some system
        ∧ resolves_to system dt_utc dt_local
        ∧ ¬ (9 ≤ DT.hour dt_local < 18).
Proof.
  split.
  - destruct (listed ev) eqn:Hlisted; [|by left]. intros Hev. right.
    apply listed_true in Hlisted as (system & eid & Hsys & Heid & Hall).
    revert Hev. unfold relevant_event. rewrite Hsys, Heid.
    apply contains_true in Hall as Hc. rewrite Hc. step.
    destruct (dt_utc_of _) as [dt_utc|] eqn:Hutc; [|done]. step.
    destruct (DT.astimezone _ _ _) as [dt_local|] eqn:Hlocal; [|done]. step.
    destruct (in_window_local dt_local) eqn:Hwin.
    + step.
      destruct (yield_row_returns ev system eid dt_utc dt_local Hall)
        as [r ->]. done.
    + intros _. exists system, dt_utc, dt_local.
      split; [done|]. split; [done|].
      rewrite <-in_window_local_spec, Hwin. done.
  - intros [Hunlisted|(system & dt_utc & dt_local & Hsys & [Hutc Hlocal] & Hout)].
    + by apply relevant_event_unlisted.
    + unfold relevant_event. rewrite Hsys.
      destruct (get_text system "EventID") as [eid|]; [|done].
      destruct (contains ALL_EVENTS eid); [|done]. step.
      rewrite Hutc. step. rewrite Hlocal. step.
      destruct (in_window_local dt_local) eqn:Hwin; [|done].
      by apply in_window_local_spec in Hwin.
Qed.

Lemma collect_Raise_iff (events : list Element) (e : exn) :
  collect events = Raise e
  ↔ ∃ pre ev post,
      events = pre ++ ev :: post
      ∧ Forall returns pre
      ∧ relevant_event ev = Raise e.
Proof.
  induction events as [|ev events IH]; simpl.
  - split; [done|]. intros (pre & ev & post & Heq & _).
    by destruct pre.
  - destruct (relevant_event ev) as [o|e'] eqn:Hev.
    + rewrite bind_Ok. split.
      * destruct (collect events) as [rows|e''] eqn:Hrest; [done|].
        rewrite bind_Raise. intros [= ->].
        destruct (proj1 IH eq_refl) as (pre & ev' & post & -> & Hpre & Hev').
        exists (ev :: pre), ev', post. split; [done|].
        split; [|done]. constructor; [by exists o | done].
      * intros (pre & ev' & post & Heq & Hpre & Hev').
        destruct pre as [|ev'' pre]; simplify_eq/=; [congruence|].
        inversion_clear Hpre as [|?? _ Hpre'].
        assert (collect (pre ++ ev' :: post) = Raise e) as ->
          by (apply IH; eauto 6).
        done.
    + rewrite bind_Raise. split.
      * intros [= ->]. exists [], ev, events. by repeat split.
      * intros (pre & ev' & post & Heq & Hpre & Hev').
        destruct pre as [|ev'' pre]; simplify_eq/=; [congruence|].
        inversion_clear Hpre as [|?? [o Ho] _]. congruence.
Qed.

(** X7. A run ends with the exception of the first event, in document
    order, for which the loop body raises: the events before it all
    returned, and nothing is reported whatever they yielded. *)
Theorem X7_first_exception_ends_the_run (root : Element) (e : exn) :
  main root = Raise e
  ↔ ∃ pre ev post,
      findall_descendants root "Event" = pre ++ ev :: post
      ∧ Forall returns pre
      ∧ relevant_event ev = Raise e.
Proof.
  rewrite <-collect_Raise_iff. unfold main, iter_relevant_events.
  destruct (collect _) as [rows|e']; unfold mbind, result_bind.
  - split; intros [=].
  - split; by intros [= ->].
Qed.

End Outcomes.

(** ** The calendar arithmetic behind [astimezone] *)

Lemma days_before_year_ord (n : Z) :
  let n0 := n - 1 in
  let n400 := n0 / 146097 in
  let r1 := n0 mod 146097 in
  let n100 := r1 / 36524 in
  let r2 := r1 mod 36524 in
  let n4 := r2 / 1461 in
  let r3 := r2 mod 1461 in
  let n1 := r3 / 365 in
  let year := n400 * 400 + 1 + n100 * 100 + n4 * 4 + n1 in
  n1 ≠ 4 → n100 ≠ 4 →
  DT.days_before_year year = n0 - r3 mod 365
  ∧ DT.is_leap year = ((n1 =? 3) && (negb (n4 =? 24) || (n100 =? 3))).
Proof.
  cbv zeta. intros H1 H100. unfold DT.days_before_year, DT.is_leap.
  split.
  - Z.div_mod_to_equations. lia.
  - repeat match goal with
    | |- context [?a =? ?b] => destruct (Z.eqb_spec a b)
    end; cbn; try reflexivity; exfalso; Z.div_mod_to_equations; lia.
Qed.

Lemma ymd2ord_ord2ymd (n : Z) :
  let '(y, m, d) := DT.ord2ymd n in DT.ymd2ord y m d = n.
Proof.
  pose proof (days_before_year_ord n) as Hyear. cbv zeta in Hyear.
  unfold DT.ord2ymd, DT.DI400Y, DT.DI100Y, DT.DI4Y. cbv zeta.
  set (r := (((n - 1) mod 146097) mod 36524) mod 1461 mod 365) in *.
  assert (0 ≤ r < 365) as Hr by (apply Z.mod_pos_bound; lia).
  destruct ((_ =? 4) || (_ =? 4)) eqn:Hend.
  - clear Hyear. unfold DT.ymd2ord, DT.days_before_year, DT.days_before_month,
      DT.is_leap.
    change (nth (Z.to_nat 12) DT.DAYS_BEFORE_MONTH (-1)) with 334.
    change (2 <? 12) with true. cbn [andb].
    apply orb_true_iff in Hend as [Hend%Z.eqb_eq | Hend%Z.eqb_eq];
      repeat match goal with
      | |- context [?a =? ?b] => destruct (Z.eqb_spec a b)
      end; cbn [andb orb negb]; subst r; Z.div_mod_to_equations; lia.
  - apply orb_false_iff in Hend as [H1%Z.eqb_neq H100%Z.eqb_neq].
    destruct (Hyear H1 H100) as [Hdays Hleap]. clear Hyear.
    revert Hdays Hleap.
    generalize ((n - 1) / 146097 * 400 + 1 + (n - 1) mod 146097 / 36524 * 100
                + (n - 1) mod 146097 mod 36524 / 1461 * 4
                + (n - 1) mod 146097 mod 36524 mod 1461 / 365).
    generalize ((((n - 1) mod 146097 mod 36524 mod 1461 / 365 =? 3)
       && (negb ((n - 1) mod 146097 mod 36524 / 1461 =? 24)
           || ((n - 1) mod 146097 / 36524 =? 3)))).
    intros leap year Hdays Hleap.
    rewrite Z.shiftr_div_pow2 by lia. change (2 ^ 5) with 32.
    remember ((r + 50) / 32) as m eqn:Hm.
    assert (32 * m ≤ r + 50 < 32 * m + 32) as Hbound
      by (Z.div_mod_to_equations; lia).
    clear Hm.
    assert (m = 1 ∨ m = 2 ∨ m = 3 ∨ m = 4 ∨ m = 5 ∨ m = 6 ∨ m = 7
            ∨ m = 8 ∨ m = 9 ∨ m = 10 ∨ m = 11 ∨ m = 12) as Hm by lia.
    destruct_or!; subst m; destruct leap;
      repeat match goal with
      | |- context [Z.to_nat ?k] =>
          let v := eval vm_compute in (Z.to_nat k) in
          change (Z.to_nat k) with v
      | |- context [(?a <? ?b) && ?c] =>
          let v := eval vm_compute in ((a <? b) && c) in
          change ((a <? b) && c) with v
      | |- context [(?a =? ?b) && ?c] =>
          let v := eval vm_compute in ((a =? b) && c) in
          change ((a =? b) && c) with v
      end; cbn [nth DT.DAYS_BEFORE_MONTH DT.DAYS_IN_MONTH]; cbv iota;
      (destruct (r <? _) eqn:Hlt;
       [apply Z.ltb_lt in Hlt | apply Z.ltb_ge in Hlt];
       unfold DT.ymd2ord, DT.days_before_month; rewrite Hdays, Hleap;
       repeat match goal with
       | |- context [Z.to_nat ?k] =>
           let v := eval vm_compute in (Z.to_nat k) in
           change (Z.to_nat k) with v
       | |- context [(?a <? ?b) && ?c] =>
           let v := eval vm_compute in ((a <? b) && c) in
           change ((a <? b) && c) with v
       end; cbn [nth DT.DAYS_BEFORE_MONTH]; cbv iota; lia).
Qed.

(** Adding a duration moves the clock reading by that duration. *)
Lemma to_us_add (dt dt' : DT.datetime) (delta : Z) :
  DT.add dt delta = Ok dt' →
  DT.to_us dt' = DT.to_us dt + delta ∧ DT.tzinfo dt' = DT.tzinfo dt.
Proof.
  unfold DT.add. destruct (_ && _); [|done].
  pose proof (ymd2ord_ord2ymd ((DT.to_us dt + delta) / DT.US_PER_DAY + 1))
    as Hord.
  destruct (DT.ord2ymd _) as [[y m] d]. intros [= <-].
  split; [|done]. unfold DT.to_us at 1. cbn. rewrite Hord.
  generalize (DT.to_us dt + delta). intros total.
  unfold DT.US_PER_DAY, DT.US_PER_SECOND.
  Z.div_mod_to_equations. lia.
Qed.

Lemma LOCAL_TZ_offsets (utc : DT.datetime) :
  LOCAL_TZ utc = -14400000000 ∨ LOCAL_TZ utc = -18000000000.
Proof.
  unfold LOCAL_TZ, DT.America_New_York. cbv zeta.
  destruct (_ && _); [by left | by right].
Qed.

(** The value [astimezone] returns shows the instant of its argument on
    the clock of New York. *)
Lemma astimezone_instant (f : DT.datetime → Z) (dt dt' : DT.datetime) :
  DT.astimezone f dt LOCAL_TZ = Ok dt' →
  ∃ off,
    DT.tzinfo dt' = Some off
    ∧ (off = -14400000000 ∨ off = -18000000000)
    ∧ DT.to_us dt' - off
      = DT.to_us dt - match DT.tzinfo dt with
                      | Some o => o
                      | None => f dt
                      end.
Proof.
  unfold DT.astimezone, DT.fromutc.
  intros (utc & Hutc & Hlocal)%bind_Ok_inv.
  apply bind_Ok_inv in Hlocal as (local & Hlocal & [= <-]).
  apply to_us_add in Hutc as [Hutc _].
  apply to_us_add in Hlocal as [Hlocal _].
  exists (LOCAL_TZ utc). split; [done|].
  split; [apply LOCAL_TZ_offsets|].
  change (DT.to_us (DT.replace_tzinfo local (Some (LOCAL_TZ utc))))
    with (DT.to_us local).
  lia.
Qed.

(** ** Invariants of the rows *)

Lemma or_else_nonempty (o : option string) (d : string) :
  d ≠ "" → Str.or_else o d ≠ "".
Proof. by destruct o as [[|c s]|]. Qed.

Lemma ALL_EVENTS_nonempty :
  map_Forall (λ k v, k ≠ "" ∧ v ≠ "") ALL_EVENTS.
Proof. apply (bool_decide_unpack _). vm_compute. exact I. Qed.

Lemma isoformat_nonempty (sep : string) (dt : DT.datetime) :
  DT.isoformat sep dt ≠ "".
Proof. done. Qed.

(** The date and time part of [isoformat]: nineteen characters. *)
Lemma isoformat_clock (sep : ascii) (dt : DT.datetime) :
  ∃ clock,
    String.length clock = 19%nat
    ∧ DT.isoformat (String sep "") dt
      = clock +:+ DT.format_utcoffset (DT.tzinfo dt).
Proof.
  exists (DT.isoformat (String sep "") (DT.replace_tzinfo dt None)).
  split; reflexivity.
Qed.

Section Invariants.

Context {machine : Machine}.

(** Every row that [main] reports satisfies what holds of every row the
    loop body yields. *)
Lemma main_rows_Forall (P : Row → Prop) (root : Element) (out : Output) :
  (∀ ev r, relevant_event ev = Ok (Some r) → P r) →
  main root = Ok out →
  ∃ rows, out = report rows ∧ Forall P rows.
Proof.
  intros HP (rows & -> & Hrows)%main_rows.
  exists rows. split; [done|].
  eapply Forall_impl; [exact Hrows|]. cbn beta.
  intros r (ev & _ & Hev). by apply (HP ev).
Qed.

(** X8. No column of a reported row is empty: an identifier and a label
    come from the tables, which hold no empty string, and a provider,
    computer or user that is absent or empty is shown as ["-"]. *)
Theorem X8_no_empty_column (root : Element) (out : Output) :
  main root = Ok out →
  ∃ rows, out = report rows ∧ Forall nonempty_fields rows.
Proof.
  apply main_rows_Forall. intros ev r Hev.
  apply relevant_event_yields in Hev
    as (system & eid & dt_utc & dt_local & _ & _ & _ & _ & _ & _ & Hrow).
  apply yield_row_label in Hrow as Hlabel.
  destruct Hlabel as (lbl & Hlbl & Hlabel).
  apply yield_row_fields in Hrow
    as (Hid & _ & Hsrc & Hprov & Hcomp & Hutc & Hlocal & Huser).
  destruct (ALL_EVENTS_nonempty eid lbl Hlbl) as [Hkey Hval].
  unfold nonempty_fields, csv_record.
  rewrite Hid, Hlabel, Hsrc, Hprov, Hcomp, Hutc, Hlocal, Huser.
  repeat constructor;
    try (by apply or_else_nonempty); try apply isoformat_nonempty;
    try done.
  - by destruct (contains _ _).
  - by case_bool_decide.
Qed.



(** X12. A run reports at most one row for each listed event; the console
    shows one line for each row and one more, the file holds the header
    and one record for each row, and every record has the eight columns of
    the header. *)
Theorem X12_size_of_the_report (root : Element) (out : Output) :
  main root = Ok out →
  ∃ rows, out = report rows
    ∧ (length rows
       ≤ length (List.filter listed (findall_descendants root "Event")))%nat
    ∧ length (stdout out) = S (length rows)
    ∧ length (csv_rows out) = S (length rows)
    ∧ Forall (λ record, length record = 8%nat) (csv_rows out).
Proof.
  unfold main, iter_relevant_events. rewrite collect_listed.
  intros (yielded & Hy & Heq)%bind_Ok_inv. simplify_eq.
  exists (sort_by local_time yielded). split; [done|].
  apply collect_in_order in Hy as (outcomes & Hall & ->).
  split_and!.
  - rewrite sort_by_Permutation.
    rewrite (Forall2_length _ _ _ Hall). clear Hall.
    induction outcomes as [|[r|] outcomes IH]; cbn in *; lia.
  - cbn. rewrite length_app, length_fmap. simpl. lia.
  - cbn. by rewrite length_fmap.
  - cbn. constructor; [done|]. by apply Forall_fmap, Forall_true.
Qed.

(** X13. A document without listed events, whatever else it holds, gives
    the header alone and the closing line: the run cannot fail. *)
Theorem X13_nothing_listed (root : Element) :
  Forall (λ ev, listed ev = false) (findall_descendants root "Event") →
  main root = Ok (report []).
Proof.
  intros Hnone. unfold main, iter_relevant_events.
  rewrite collect_listed.
  assert (List.filter listed (findall_descendants root "Event") = []) as ->.
  { induction Hnone as [|ev events Hev _ IH]; simpl; [done|].
    by rewrite Hev. }
  done.
Qed.

End Invariants.

(** ** Python strings *)

Lemma append_cons (c : ascii) (a b : string) :
  String c a +:+ b = String c (a +:+ b).
Proof. reflexivity. Qed.

Lemma append_assoc (a b c : string) : (a +:+ b) +:+ c = a +:+ b +:+ c.
Proof.
  induction a as [|x a IH]; [done|]. by rewrite !append_cons, IH.
Qed.

Lemma rev_app_append (s acc : string) :
  String.rev_app s acc = String.rev s +:+ acc.
Proof.
  unfold String.rev. revert acc.
  induction s as [|c s IH]; intros acc; [done|].
  cbn [String.rev_app].
  rewrite (IH (String c acc)), (IH (String c "")), append_assoc. done.
Qed.

Lemma rev_cons (c : ascii) (s : string) :
  String.rev (String c s) = String.rev s +:+ String c "".
Proof. unfold String.rev at 1. cbn [String.rev_app]. apply rev_app_append. Qed.

Lemma rev_snoc (s : string) (c : ascii) :
  String.rev (s +:+ String c "") = String c (String.rev s).
Proof.
  induction s as [|a s IH]; [done|].
  by rewrite append_cons, !rev_cons, IH.
Qed.

Lemma rev_involutive (s : string) : String.rev (String.rev s) = s.
Proof.
  induction s as [|c s IH]; [done|]. by rewrite rev_cons, rev_snoc, IH.
Qed.

Lemma lstrip_append (s t : string) (c : ascii) :
  Str.is_space c = false →
  Str.lstrip (s +:+ String c t) = Str.lstrip s +:+ String c t.
Proof.
  intros Hc. induction s as [|a s IH].
  { change (Str.lstrip (String c t) = String c t).
    cbn [Str.lstrip]. by rewrite Hc. }
  rewrite append_cons. cbn [Str.lstrip].
  by destruct (Str.is_space a).
Qed.

Lemma rstrip_snoc (s : string) (c : ascii) :
  Str.is_space c = false →
  Str.rstrip (s +:+ String c "") = s +:+ String c "".
Proof.
  intros Hc. unfold Str.rstrip. rewrite rev_snoc. cbn [Str.lstrip].
  rewrite Hc. by rewrite rev_cons, rev_involutive.
Qed.

Lemma endswith_snoc (s : string) (c c' : ascii) :
  Str.endswith (s +:+ String c "") (String c' "") = bool_decide (c' = c).
Proof.
  unfold Str.endswith. rewrite rev_snoc.
  change (String.rev (String c' "")) with (String c' "").
  cbn [String.prefix].
  destruct (ascii_dec c' c); case_bool_decide; try done.
  by destruct (String.rev s).
Qed.

Lemma length_snoc (s : string) (c : ascii) :
  String.length (s +:+ String c "") = S (String.length s).
Proof.
  induction s as [|a s IH]; [done|].
  rewrite append_cons. cbn [String.length]. by rewrite IH.
Qed.

Lemma drop_last_snoc (s : string) (c : ascii) :
  Str.drop_last (s +:+ String c "") = s.
Proof.
  unfold Str.drop_last. rewrite length_snoc, Nat.sub_1_r. cbn [pred].
  induction s as [|a s IH]; [done|].
  rewrite append_cons. cbn [String.length String.substring]. by rewrite IH.
Qed.

Lemma replace_append (old : ascii) (new a b : string) :
  Str.replace old new (a +:+ b)
  = Str.replace old new a +:+ Str.replace old new b.
Proof.
  induction a as [|x a IH]; [done|].
  rewrite append_cons. cbn [Str.replace].
  destruct (Ascii.eqb x old); rewrite IH; [|done].
  by rewrite append_assoc.
Qed.

Lemma try_iso_Z (s : string) :
  try_iso_to_dt_utc (Some (s +:+ "Z"))
  = DT.fromisoformat (Str.lstrip s +:+ "+00:00").
Proof.
  unfold try_iso_to_dt_utc.
  assert (∃ c t, s +:+ "Z" = String c t) as (c & t & Hs)
    by (destruct s; [by exists "Z"%char, "" | rewrite append_cons; eauto]).
  rewrite Hs, <-Hs. clear c t Hs. unfold Str.strip.
  rewrite (lstrip_append s "" "Z") by done.
  rewrite (rstrip_snoc _ "Z") by done.
  rewrite endswith_snoc, drop_last_snoc. done.
Qed.

Lemma try_iso_plus_zero (s : string) :
  try_iso_to_dt_utc (Some (s +:+ "+00:00"))
  = DT.fromisoformat (Str.lstrip s +:+ "+00:00").
Proof.
  unfold try_iso_to_dt_utc.
  assert (∃ c t, s +:+ "+00:00" = String c t) as (c & t & Hs)
    by (destruct s; [by exists "+"%char, "00:00"
                   | rewrite append_cons; eauto]).
  rewrite Hs, <-Hs. clear c t Hs. unfold Str.strip.
  rewrite (lstrip_append s "00:00" "+") by done.
  change (Str.lstrip s +:+ "+00:00")
    with (Str.lstrip s +:+ "+00:0" +:+ "0").
  rewrite <-append_assoc.
  rewrite (rstrip_snoc _ "0") by done.
  rewrite endswith_snoc. done.
Qed.

(** X3. A time stamp that ends in ["Z"] is read exactly as the same time
    stamp with ["+00:00"] in its place: both parses of lines 81-84 return
    the same value or fail alike. *)
Theorem X3_Z_reads_as_plus_zero (s : string) :
  try_iso_to_dt_utc (Some (s +:+ "Z"))
  = try_iso_to_dt_utc (Some (s +:+ "+00:00"))
  ∧ dt_utc_of (Some (s +:+ "Z")) = dt_utc_of (Some (s +:+ "+00:00")).
Proof.
  assert (try_iso_to_dt_utc (Some (s +:+ "Z"))
          = try_iso_to_dt_utc (Some (s +:+ "+00:00"))) as Htry
    by (by rewrite try_iso_Z, try_iso_plus_zero).
  split; [done|]. unfold dt_utc_of. rewrite Htry.
  by rewrite !replace_append.
Qed.

Lemma space_is_no_digit (c : ascii) :
  Str.is_space c = true → Str.digit c = None.
Proof.
  unfold Str.is_space, Str.digit. cbv zeta.
  generalize (Z.of_N (N_of_ascii c)). intros n Hspace.
  destruct ((48 <=? n) && (n <=? 57)) eqn:Hdigit; [|done].
  apply andb_true_iff in Hdigit as [?%Z.leb_le ?%Z.leb_le].
  repeat match goal with
  | H : (_ || _) = true |- _ => apply orb_true_iff in H as [H|H]
  | H : (_ && _) = true |- _ => apply andb_true_iff in H as [? ?]
  | H : (_ <=? _) = true |- _ => apply Z.leb_le in H
  | H : (_ =? _) = true |- _ => apply Z.eqb_eq in H
  end; lia.
Qed.

Lemma fromisoformat_leading_space (c : ascii) (s : string) :
  Str.is_space c = true → DT.fromisoformat (String c s) = None.
Proof.
  intros Hc%space_is_no_digit. unfold DT.fromisoformat.
  assert (DT.parse_isoformat_date (Str.take 10 (String c s)) = None) as ->;
    [|done].
  unfold DT.parse_isoformat_date, Str.digits, Str.take.
  cbn [String.substring Str.digits_from]. by rewrite Hc.
Qed.

(** X4. White space in front of a time stamp is forgiven only when the
    time stamp carries a zone: [try_iso_to_dt_utc] strips it, the second
    parse of line 84 does not.  With a leading white-space character the
    value bound to [dt_utc] is the zone-aware result of the first parse,
    and in every other case the run ends with [ValueError]. *)
Theorem X4_leading_white_space (c : ascii) (s : string) :
  Str.is_space c = true →
  dt_utc_of (Some (String c s))
  = match try_iso_to_dt_utc (Some (String c s)) with
    | Some dt =>
        match DT.tzinfo dt with
        | Some _ => Ok dt
        | None => Raise ValueError
        end
    | None => Raise ValueError
    end.
Proof.
  intros Hc. unfold dt_utc_of.
  assert (Str.replace "Z" "+00:00" (String c s)
          = String c (Str.replace "Z" "+00:00" s)) as ->.
  { cbn [Str.replace]. destruct (Ascii.eqb_spec c "Z") as [->|]; [|done].
    discriminate Hc. }
  by rewrite (fromisoformat_leading_space _ _ Hc).
Qed.

(** ** The user of an event, continued *)

Lemma find_first (name : string) (pre post : list Element) (c : Element) :
  Forall (λ c', tag c' ≠ name) pre → tag c = name →
  List.find (has_tag name) (pre ++ c :: post) = Some c.
Proof.
  intros Hpre Hc. induction Hpre as [|c' pre Hc' _ IH]; simpl.
  - unfold has_tag. by rewrite bool_decide_eq_true_2.
  - unfold has_tag at 1. by rewrite bool_decide_eq_false_2.
Qed.

(** X14. [extract_username] reads the first [EventData] child of the event
    and nothing else: the children after it (a second [EventData] with a
    user field, say), the tag, the attributes and the text of the event
    do not change its result. *)
Theorem X14_only_the_first_EventData (t : string) (a : gmap string string)
    (x : option string) (pre post : list Element) (ed : Element) :
  Forall (λ c, tag c ≠ "EventData") pre →
  tag ed = "EventData" →
  extract_username (Elem t a x (pre ++ ed :: post))
  = scan_data (findall ed "Data") None.
Proof.
  intros Hpre Hed. unfold extract_username, find. cbn [children].
  by rewrite (find_first _ _ _ _ Hpre Hed).
Qed.

(** ** Values returned by [try_iso_to_dt_utc] *)

Lemma new_fields (y m d hh mm ss us : Z) (tz : option Z)
    (dt : DT.datetime) :
  DT.new y m d hh mm ss us tz = Some dt →
  DT.MINYEAR ≤ DT.year dt ≤ DT.MAXYEAR
  ∧ 1 ≤ DT.month dt ≤ 12
  ∧ 1 ≤ DT.day dt ≤ DT.days_in_month (DT.year dt) (DT.month dt)
  ∧ 0 ≤ DT.hour dt ≤ 23
  ∧ 0 ≤ DT.minute dt ≤ 59
  ∧ 0 ≤ DT.second dt ≤ 59
  ∧ 0 ≤ DT.microsecond dt ≤ 999999.
Proof.
  unfold DT.new, DT.in_range.
  destruct (_ && _) eqn:Hall; [|done]. intros [= <-]. cbn.
  repeat match goal with
  | H : (_ && _) = true |- _ => apply andb_true_iff in H as [H ?]
  | H : (_ <=? _) = true |- _ => apply Z.leb_le in H
  end.
  lia.
Qed.

Lemma fromisoformat_new (s : string) (dt : DT.datetime) :
  DT.fromisoformat s = Some dt →
  ∃ y m d hh mm ss us tz, DT.new y m d hh mm ss us tz = Some dt.
Proof.
  unfold DT.fromisoformat.
  destruct (DT.parse_isoformat_date _) as [[[y m] d]|]; [|done].
  cbn [mbind option_bind].
  destruct (_ <=? _)%nat; [eauto 10|].
  destruct (DT.parse_isoformat_time _) as [[[[[hh mm] ss] us] tz]|]; [|done].
  cbn [mbind option_bind]. eauto 10.
Qed.

(** X15. A value returned by [try_iso_to_dt_utc] is a date of the calendar
    and a time of the day: the day exists in its month (no 30 February),
    the hour is below 24, and an offset lies strictly between -24 h and
    +24 h. *)
Theorem X15_parsed_values_are_valid (iso_str : option string)
    (dt : DT.datetime) :
  try_iso_to_dt_utc iso_str = Some dt →
  DT.MINYEAR ≤ DT.year dt ≤ DT.MAXYEAR
  ∧ 1 ≤ DT.month dt ≤ 12
  ∧ 1 ≤ DT.day dt ≤ DT.days_in_month (DT.year dt) (DT.month dt)
  ∧ 0 ≤ DT.hour dt ≤ 23
  ∧ 0 ≤ DT.minute dt ≤ 59
  ∧ 0 ≤ DT.second dt ≤ 59
  ∧ 0 ≤ DT.microsecond dt ≤ 999999
  ∧ ∀ off, DT.tzinfo dt = Some off → - DT.US_PER_DAY < off < DT.US_PER_DAY.
Proof.
  intros Hdt.
  assert (∃ s, DT.fromisoformat s = Some dt) as [s Hs].
  { revert Hdt. unfold try_iso_to_dt_utc.
    destruct iso_str as [[|c s]|]; try done. eauto. }
  destruct (fromisoformat_new _ _ Hs)
    as (y & m & d & hh & mm & ss & us & tz & Hnew).
  apply new_fields in Hnew. split_and!; try tauto.
  intros off. by apply (try_iso_offset_range _ _ _ Hdt).
Qed.

(** ** The order of the events *)

Section SortOrder.
Context {A : Type} (key : A → string).

Lemma filter_key_NoDup (k : string) (l : list A) :
  NoDup (key <$> l) → (length (filter (λ y, key y = k) l) ≤ 1)%nat.
Proof.
  induction l as [|x l IH]; [simpl; lia|].
  rewrite fmap_cons, NoDup_cons. intros [Hx Hl].
  rewrite filter_cons. destruct (decide (key x = k)) as [Hk|]; [|auto].
  destruct (filter (λ y, key y = k) l) as [|y l'] eqn:Hfilter;
    [simpl; lia|].
  exfalso. apply Hx.
  assert (y ∈ filter (λ y, key y = k) l) as [Hy Hin]%list_elem_of_filter
    by (rewrite Hfilter; left).
  rewrite Hk, <-Hy. by apply list_elem_of_fmap_2.
Qed.

(** Lists with the same elements, no two of one key, sort to the same
    list. *)
Lemma sort_by_Permutation_NoDup (l1 l2 : list A) :
  l1 ≡ₚ l2 → NoDup (key <$> l1) → sort_by key l1 = sort_by key l2.
Proof.
  intros Hperm Hnodup.
  apply sorted_stable_unique with (key := key); try apply sort_by_sorted.
  intros k. rewrite !sort_by_stable.
  pose proof (filter_key_NoDup k l1 Hnodup) as Hlen.
  assert (filter (λ y, key y = k) l1 ≡ₚ filter (λ y, key y = k) l2)
    as Hfilter by (by rewrite Hperm).
  destruct (filter (λ y, key y = k) l1) as [|x [|x' l]]; simpl in Hlen.
  - by apply Permutation_nil_l.
  - by apply Permutation_singleton_l.
  - lia.
Qed.

End SortOrder.

Section Order.

Context {machine : Machine}.

Lemma collect_Permutation (events1 events2 : list Element)
    (rows1 : list Row) :
  events1 ≡ₚ events2 → collect events1 = Ok rows1 →
  ∃ rows2, collect events2 = Ok rows2 ∧ rows1 ≡ₚ rows2.
Proof.
  intros Hperm. revert rows1.
  induction Hperm as [|ev l l' _ IH|ev ev' l|l l' l'' _ IH1 _ IH2];
    intros rows1; simpl.
  - intros [= <-]. by exists [].
  - intros (o & -> & Hrest)%bind_Ok_inv.
    apply bind_Ok_inv in Hrest as (rows & Hrows & [= <-]).
    destruct (IH _ Hrows) as (rows2 & -> & Hperm').
    exists (option_list o ++ rows2). split; [done|]. by rewrite Hperm'.
  - intros (o' & -> & Hrest)%bind_Ok_inv.
    apply bind_Ok_inv in Hrest as (rows' & Hrest & [= <-]).
    apply bind_Ok_inv in Hrest as (o & -> & Hrest).
    apply bind_Ok_inv in Hrest as (rows & -> & [= <-]).
    exists (option_list o ++ option_list o' ++ rows). split; [done|].
    rewrite !(assoc_L (++)). f_equiv. apply Permutation_app_comm.
  - intros Hrows1.
    destruct (IH1 _ Hrows1) as (rows2 & Hrows2 & Hperm12).
    destruct (IH2 _ Hrows2) as (rows3 & Hrows3 & Hperm23).
    exists rows3. split; [done|]. by etrans.
Qed.

(** X11. The report does not depend on the order of the events in the
    document as long as no two rows share a [local_time] string: two
    documents with the same events in any order give the same output. *)
Theorem X11_order_of_events_is_immaterial (root1 root2 : Element)
    (rows1 : list Row) :
  iter_relevant_events root1 = Ok rows1 →
  NoDup (local_time <$> rows1) →
  findall_descendants root1 "Event" ≡ₚ findall_descendants root2 "Event" →
  main root2 = main root1.
Proof.
  unfold main, iter_relevant_events. intros Hrows1 Hnodup Hperm.
  destruct (collect_Permutation _ _ _ Hperm Hrows1) as (rows2 & -> & Hrows).
  rewrite Hrows1, !bind_Ok.
  by rewrite (sort_by_Permutation_NoDup local_time rows1 rows2).
Qed.

End Order.

(** ** Time stamps without a zone *)

Lemma snoc_cases (s : string) :
  s = "" ∨ ∃ s' c, s = s' +:+ String c "".
Proof.
  induction s as [|a s IH]; [by left|]. right.
  destruct IH as [->|(s' & c & ->)].
  - by exists "", a.
  - by exists (String a s'), c.
Qed.

Lemma replace_without (old : ascii) (new s : string) :
  (∀ c, c ∈ String.list_ascii_of_string s → c ≠ old) →
  Str.replace old new s = s.
Proof.
  induction s as [|a s IH]; [done|]. cbn [String.list_ascii_of_string].
  intros Hs. cbn [Str.replace].
  destruct (Ascii.eqb_spec a old) as [->|_].
  - by destruct (Hs old); [left|].
  - rewrite IH; [done|]. intros c Hc. apply Hs. by right.
Qed.

Lemma endswith_without (s : string) (c : ascii) :
  (∀ c', c' ∈ String.list_ascii_of_string s → c' ≠ c) →
  Str.endswith s (String c "") = false.
Proof.
  intros Hs. destruct (snoc_cases s) as [->|(s' & c' & ->)]; [done|].
  rewrite endswith_snoc. apply bool_decide_eq_false_2. intros ->.
  apply (Hs c'); [|done]. clear Hs.
  induction s' as [|a s' IH]; [left|].
  rewrite append_cons. cbn [String.list_ascii_of_string]. by right.
Qed.

(** X16. For a time stamp that holds no ["Z"] and no white space around
    it, the substitution of line 84 changes nothing: both parses read the
    same string, so a time stamp without zone stays naive and the
    "assume UTC" branch never attaches UTC to it. *)
Theorem X16_second_parse_adds_no_zone (raw : string) :
  raw ≠ "" →
  Str.strip raw = raw →
  (∀ c, c ∈ String.list_ascii_of_string raw → c ≠ "Z"%char) →
  try_iso_to_dt_utc (Some raw) = DT.fromisoformat raw
  ∧ dt_utc_of (Some raw)
    = match DT.fromisoformat raw with
      | Some dt => Ok dt
      | None => Raise ValueError
      end.
Proof.
  intros Hne Hstrip HnoZ.
  assert (try_iso_to_dt_utc (Some raw) = DT.fromisoformat raw) as Htry.
  { unfold try_iso_to_dt_utc. destruct raw as [|c s]; [done|].
    by rewrite Hstrip, (endswith_without _ _ HnoZ). }
  split; [done|]. unfold dt_utc_of.
  rewrite Htry, (replace_without _ _ _ HnoZ).
  destruct (DT.fromisoformat raw) as [dt|]; [|done].
  by destruct (DT.tzinfo dt).
Qed.

(** ** Instances of the further properties *)

Lemma X1_label_is_table_entry_witness :
  ∃ rows,
    main (machine := fixed_zone 0) day_log = Ok (report rows)
    ∧ Forall (λ r, ALL_EVENTS !! event_id r = Some (label r)) rows.
Proof.
  destruct (X1_label_is_table_entry (machine := fixed_zone 0) day_log
              (report (reported day_log))) as (rows & Heq & Hall).
  - vm_compute. reflexivity.
  - exists rows. split; [|exact Hall].
    rewrite <-Heq. vm_compute. reflexivity.
Defined.

Lemma X2_source_is_the_table_witness :
  ∃ rows,
    main (machine := fixed_zone 0) day_log = Ok (report rows)
    ∧ Forall (λ r, source r = "security" ∨ source r = "system") rows.
Proof.
  destruct (X2_source_is_the_table (machine := fixed_zone 0) day_log
              (report (reported day_log))) as (rows & Heq & Hall).
  - vm_compute. reflexivity.
  - exists rows. split.
    + rewrite <-Heq. vm_compute. reflexivity.
    + eapply Forall_impl; [exact Hall|]. cbn beta. intros r Hr. apply Hr.
Defined.

Lemma X4_leading_white_space_witness :
  dt_utc_of (Some padded_aware)
  = Ok (DT.mk_datetime 2025 8 21 13 5 0 0 (Some 0))
  ∧ dt_utc_of (Some padded_naive) = Raise ValueError.
Proof.
  unfold padded_aware, padded_naive. split.
  - rewrite (X4_leading_white_space " " "2025-08-21T13:05:00Z");
      vm_compute; reflexivity.
  - rewrite (X4_leading_white_space " " "2025-08-21T13:05:00");
      vm_compute; reflexivity.
Defined.


Lemma X8_no_empty_column_witness :
  ∃ rows,
    main (machine := fixed_zone 0) day_log = Ok (report rows)
    ∧ Forall nonempty_fields rows.
Proof.
  destruct (X8_no_empty_column (machine := fixed_zone 0) day_log
              (report (reported day_log))) as (rows & Heq & Hall).
  - vm_compute. reflexivity.
  - exists rows. split; [|exact Hall].
    rewrite <-Heq. vm_compute. reflexivity.
Defined.



Lemma X11_order_of_events_is_immaterial_witness :
  main (machine := fixed_zone 0) morning_log_reversed
  = main (machine := fixed_zone 0) morning_log.
Proof.
  apply (X11_order_of_events_is_immaterial (machine := fixed_zone 0)
           morning_log morning_log_reversed
           [alice_logon_row;
            {| source := "system"; event_id := "6006";
               label := "EventLog Stopped (Shutdown)";
               provider := "-"; computer := "-";
               utc_time := "2025-08-21T14:00:00+00:00";
               local_time := "2025-08-21 10:00:00-04:00";
               user := "-" |}]).
  - vm_compute. reflexivity.
  - cbn. apply NoDup_cons. split; [|apply NoDup_singleton].
    intros Hin%list_elem_of_singleton. discriminate Hin.
  - assert (findall_descendants morning_log "Event"
            = [alice_logon; shutdown_with_user]) as ->
      by (vm_compute; reflexivity).
    assert (findall_descendants morning_log_reversed "Event"
            = [shutdown_with_user; alice_logon]) as ->
      by (vm_compute; reflexivity).
    apply Permutation_swap.
Defined.

Lemma X12_size_of_the_report_witness :
  ∃ rows,
    main (machine := fixed_zone 0) day_log = Ok (report rows)
    ∧ (length rows ≤ 4)%nat.
Proof.
  destruct (X12_size_of_the_report (machine := fixed_zone 0) day_log
              (report (reported day_log)))
    as (rows & Heq & Hlen & _).
  - vm_compute. reflexivity.
  - exists rows. split.
    + rewrite <-Heq. vm_compute. reflexivity.
    + assert (length (List.filter listed
                        (findall_descendants day_log "Event")) = 4%nat)
        as Hfour by (vm_compute; reflexivity).
      rewrite <-Hfour. exact Hlen.
Defined.

Lemma X13_nothing_listed_witness :
  main (machine := fixed_zone 0) alice_logon = Ok (report [])
  ∧ main (machine := fixed_zone 0) (events [unlisted]) = Ok (report []).
Proof.
  split.
  - apply (X13_nothing_listed (machine := fixed_zone 0) alice_logon).
    assert (findall_descendants alice_logon "Event" = []) as ->
      by (vm_compute; reflexivity).
    constructor.
  - apply (X13_nothing_listed (machine := fixed_zone 0) (events [unlisted])).
    assert (findall_descendants (events [unlisted]) "Event" = [unlisted])
      as -> by (vm_compute; reflexivity).
    constructor; [vm_compute; reflexivity | constructor].
Defined.

Lemma X14_only_the_first_EventData_witness :
  extract_username two_blocks = None.
Proof.
  unfold two_blocks, elem.
  rewrite (X14_only_the_first_EventData "Event" (list_to_map []) None
             [system_block "4624" "2025-08-21T13:05:00Z"]
             [elem "EventData" [] None [data "TargetUserName" "alice"]]
             (elem "EventData" [] None [data "LogonType" "2"])).
  - vm_compute. reflexivity.
  - constructor; [|constructor]. vm_compute. discriminate.
  - vm_compute. reflexivity.
Defined.

Lemma X15_parsed_values_are_valid_witness :
  1 ≤ DT.day (DT.mk_datetime 2024 2 29 13 5 0 0 (Some 0))
    ≤ DT.days_in_month 2024 2.
Proof.
  apply (X15_parsed_values_are_valid (Some "2024-02-29T13:05:00Z")
           (DT.mk_datetime 2024 2 29 13 5 0 0 (Some 0))).
  vm_compute. reflexivity.
Defined.

Lemma X16_second_parse_adds_no_zone_witness :
  dt_utc_of (Some "2025-08-21T13:05:00")
  = Ok (DT.mk_datetime 2025 8 21 13 5 0 0 None).
Proof.
  destruct (X16_second_parse_adds_no_zone "2025-08-21T13:05:00")
    as [_ Hutc].
  - discriminate.
  - vm_compute. reflexivity.
  - intros c Hc. cbn in Hc.
    repeat (apply elem_of_cons in Hc as [->|Hc]; [discriminate|]).
    by apply not_elem_of_nil in Hc.
  - rewrite Hutc. vm_compute. reflexivity.
Defined.
